(** * BloodLine server: a shallow embedding of [src/index.js]

    The server is a set of Express route handlers over four MongoDB
    collections.  Each handler is embedded as a pure function from the
    request, the clock and the store to an outcome (the response sent, or an
    uncaught exception) and the store afterwards.  The other files under
    [src/] are earlier revisions of the same server: the handlers they share
    with [index.js] read the same, up to the wording of one message and the
    [phone] field of the profile update.

    Conventions.
    - A JSON object (a request body, a stored document) is a finite map from
      field names to values.  Reading a property that is absent gives
      JavaScript's [undefined], written [None].
    - A collection is the list of its documents in insertion order (the
      natural order [find] and [findOne] use without a sort).
    - The store answers every call.  An insert the server refuses, because
      the document brings an [_id] that is an array or that a stored document
      already carries, throws in the handler; the identifiers the driver
      generates are taken to be new.  A lost connection is not part of the
      model.
    - The libraries the handlers call into (firebase-admin, bson, stripe, the
      date conversions of the aggregation pipeline and of JavaScript) are the
      fields of a [Platform]. *)

From Stdlib Require Import ZArith NArith Bool Ascii String.
From stdpp Require Import base option list strings gmap sorting.

Local Open Scope Z_scope.
Local Open Scope string_scope.

(** ** Values and documents *)

(** The values a document field can hold: JSON values, and the two BSON
    types the server itself creates ([new Date()] and [ObjectId]). *)
#[warnings="-register-all"]
Inductive Value : Type :=
| VNull
| VBool (b : bool)
| VNum (z : Z)
| VStr (s : string)
| VDate (t : Z)
| VOid (o : N)
| VArr (l : list Value)
| VObj (l : list (string * Value)).

Fixpoint Value_eq_dec (a b : Value) {struct a} : {a = b} + {a <> b}.
Proof.
  decide equality.
  - apply Bool.bool_dec.
  - apply Z.eq_dec.
  - apply String.string_dec.
  - apply Z.eq_dec.
  - apply N.eq_dec.
  - apply (List.list_eq_dec Value_eq_dec).
  - apply List.list_eq_dec. decide equality. apply String.string_dec.
Defined.

#[global] Instance Value_eq_decision : EqDecision Value := Value_eq_dec.

Abbreviation Document := (gmap string Value).

(** [obj.key] in JavaScript is [obj !! key]; where the driver serialises a
    value, an [undefined] is written as BSON null (the driver's default,
    [ignoreUndefined] being off). *)
Definition bson (v : option Value) : Value := default VNull v.

(** [v === s] for a string literal [s]. *)
Definition isStr (s : string) (v : option Value) : bool :=
  bool_decide (v = Some (VStr s)).

(** ** Requests, responses and the store *)

(** The claims of a verified ID token; the handlers read [email] only. *)
Record Decoded := { email : string }.

(** A checkout session as the payment processor returns it. *)
Record Session := {
  payment_status : string;
  metadata : gmap string string
}.

(** What the handlers read of a request: the [Authorization] header, the
    route's path parameter ([:email] or [:id]), [req.query.status] when it
    is a string, and the parsed JSON body, an object. *)
Record Request := {
  authorization : option string;
  param : string;
  query_status : option string;
  body : Document
}.

Inductive Payload :=
| PNull
| PObj (d : Document)
| PList (l : list Document).

Record Response := { status : Z; payload : Payload }.

(** A handler either sends a response or lets an exception escape: the
    promise of the async handler is rejected and the handler has sent
    nothing. *)
Inductive Outcome :=
| Sent (r : Response)
| Threw.

Definition send (p : Payload) : Outcome := Sent {| status := 200; payload := p |}.
Definition sendStatus (code : Z) (p : Payload) : Outcome :=
  Sent {| status := code; payload := p |}.
Definition message (m : string) : Payload := PObj {[ "message" := VStr m ]}.

(** [nextId] is the state of the driver's ObjectId generator: the next
    identifier [insertOne] gives to a document that has none. *)
Record Store := {
  users : list Document;
  requests : list Document;
  blogs : list Document;
  payments : list Document;
  nextId : N
}.

(** The i-th evaluation of [new Date()] within one handler run, in
    milliseconds since the epoch. *)
Definition Clock := nat -> Z.

(** The libraries behind the handlers. *)
Record Platform := {
  (** firebase-admin: [admin.auth().verifyIdToken], [inl] the error thrown *)
  verifyIdToken : string -> Value + Decoded;
  (** bson: [new ObjectId(id)], [None] when it throws *)
  ObjectId : string -> option N;
  (** MongoDB: whether a field satisfies a filter value that is an object
      (a query operator or an embedded document) *)
  matchObject : list (string * Value) -> option Value -> bool;
  (** [stripe] is [null] when no secret key is configured; [retrieve] is
      [stripe.checkout.sessions.retrieve], [None] when it throws *)
  stripe : option (option Value -> option Session);
  (** JavaScript's [parseFloat] *)
  parseFloat : option string -> Value;
  (** MongoDB: [$convert ... to: "date"] on a value that is not null,
      [None] on a conversion error; [$month] and [$year] of a date *)
  toDate : Value -> option Z;
  dateMonth : Z -> Z;
  dateYear : Z -> Z;
  (** JavaScript: [new Date(v)], [None] for an invalid date; [getMonth]
      and [getFullYear] *)
  jsDate : option Value -> option Z;
  getMonth : Z -> Z;
  getFullYear : Z -> Z
}.

(** ** The document store *)

Definition setUsers (c : list Document) (s : Store) : Store :=
  {| users := c; requests := requests s; blogs := blogs s;
     payments := payments s; nextId := nextId s |}.
Definition setRequests (c : list Document) (s : Store) : Store :=
  {| users := users s; requests := c; blogs := blogs s;
     payments := payments s; nextId := nextId s |}.
Definition setPayments (c : list Document) (s : Store) : Store :=
  {| users := users s; requests := requests s; blogs := blogs s;
     payments := c; nextId := nextId s |}.
Definition setNextId (n : N) (s : Store) : Store :=
  {| users := users s; requests := requests s; blogs := blogs s;
     payments := payments s; nextId := n |}.

(** An equality filter [{ k1: q1, k2: q2, ... }]. *)
Definition Filter := list (string * Value).

(** Whether a collection takes a document: MongoDB refuses one that
    brings an [_id] that is an array, or an [_id] that a stored document
    already carries.  A document without [_id], or with a null one, is given
    a generated identifier and is taken. *)
Definition takes (c : list Document) (doc : Document) : bool :=
  match doc !! "_id" with
  | None | Some VNull => true
  | Some (VArr _) => false
  | Some id => negb (existsb (fun d => bool_decide (d !! "_id" = Some id)) c)
  end.

(** [collection.insertOne(doc)]: the driver gives the document a fresh
    [_id] when it has none ([doc._id == null]); the result carries the
    [_id] stored.  [None] when the server refuses the document: the call
    throws and nothing is stored. *)
Definition insertOne (doc : Document) (c : list Document) (fresh : N)
  : option (list Document * Payload) :=
  let id := match doc !! "_id" with
            | None | Some VNull => VOid fresh
            | Some v => v
            end in
  if takes c doc then
    Some ((c ++ [<["_id" := id]> doc])%list,
          PObj {[ "acknowledged" := VBool true; "insertedId" := id ]})
  else None.

Definition updateResult (matched modified : nat) : Payload :=
  PObj {[ "acknowledged" := VBool true;
          "modifiedCount" := VNum (Z.of_nat modified);
          "upsertedId" := VNull;
          "upsertedCount" := VNum 0;
          "matchedCount" := VNum (Z.of_nat matched) ]}.

Section Server.

Context (P : Platform).

(** A field satisfies [{ k: q }] when it equals [q] or is an array with an
    element equal to [q]; [null] is also satisfied by an absent field. *)
Definition matchField (q : Value) (v : option Value) : bool :=
  match q with
  | VObj o => matchObject P o v
  | _ =>
      bool_decide (v = Some q)
      || bool_decide (q = VNull /\ v = None)
      || match v with
         | Some (VArr l) => bool_decide (q ∈ l)
         | _ => false
         end
  end.

Definition matches (flt : Filter) (d : Document) : bool :=
  forallb (fun kq => matchField (snd kq) (d !! fst kq)) flt.

(** [collection.find(flt).toArray()] and [collection.findOne(flt)]. *)
Definition find (flt : Filter) (c : list Document) : list Document :=
  List.filter (matches flt) c.

Definition findOne (flt : Filter) (c : list Document) : option Document :=
  List.find (matches flt) c.

(** [collection.updateOne(flt, { $set: set })]: the first document that
    satisfies the filter takes the fields of [set]. *)
Fixpoint updateOne (flt : Filter) (set : Document) (c : list Document)
  : list Document * Payload :=
  match c with
  | [] => ([], updateResult 0 0)
  | d :: rest =>
      if matches flt d then
        let d' := set ∪ d in
        (d' :: rest, updateResult 1 (if bool_decide (d' = d) then 0 else 1))
      else
        let r := updateOne flt set rest in (d :: fst r, snd r)
  end.

(** ** Middleware *)

Definition Reply : Type := Outcome * Store.

Definition isSpace (c : ascii) : bool := bool_decide (c = " "%char).

Fixpoint uptoSpace (s : string) : string :=
  match s with
  | EmptyString => EmptyString
  | String c r => if isSpace c then EmptyString else String c (uptoSpace r)
  end.

Fixpoint afterSpace (s : string) : option string :=
  match s with
  | EmptyString => None
  | String c r => if isSpace c then Some r else afterSpace r
  end.

(** [header.split(" ")[1]] *)
Definition split1 (header : string) : option string :=
  uptoSpace <$> afterSpace header.

Definition verifyToken (req : Request) (s : Store) (next : Decoded -> Reply)
  : Reply :=
  match authorization req ≫= split1 with
  | None | Some EmptyString =>
      (sendStatus 401 (message "Unauthorized Access!"), s)
  | Some token =>
      match verifyIdToken P token with
      | inr decoded => next decoded
      | inl err =>
          (sendStatus 401
             (PObj {[ "message" := VStr "Unauthorized Access!"; "err" := err ]}),
           s)
      end
  end.

Definition byEmail (e : string) : Filter := [("email", VStr e)].

(** [if (status) query.status = status]: an empty string is falsy. *)
Definition withStatus (req : Request) (query : Filter) : Filter :=
  match query_status req with
  | None | Some EmptyString => query
  | Some st => (query ++ [("status", VStr st)])%list
  end.

Definition byId (oid : N) : Filter := [("_id", VOid oid)].

Definition forbidden : Payload := message "forbidden access".

(** ** Donation requests *)

(** [app.post("/donation-request", verifyToken, ...)] *)
Definition createDonationRequest (user : Decoded) (req : Request) (s : Store)
  : Reply :=
  let request := body req in
  let requesterEmail := email user in
  match findOne (byEmail requesterEmail) (users s) with
  | None => (Threw, s) (* requester is null: reading requester.status throws *)
  | Some requester =>
      if isStr "blocked" (requester !! "status") then
        (sendStatus 403 (message "Blocked users cannot create donation requests"), s)
      else
        let newRequest := <["status" := VStr "pending"]> request in
        match insertOne newRequest (requests s) (nextId s) with
        | None => (Threw, s) (* the insert is refused and nothing catches it *)
        | Some result =>
            (send (snd result),
             setNextId (N.succ (nextId s)) (setRequests (fst result) s))
        end
  end.

(** [app.get("/donation-requests/:email", verifyToken, ...)] *)
Definition getDonationRequests (user : Decoded) (req : Request) (s : Store)
  : Reply :=
  let email_ := param req in
  if bool_decide (email user <> email_) then (sendStatus 403 forbidden, s)
  else
    let query := withStatus req [("requesterEmail", VStr email_)] in
    (send (PList (find query (requests s))), s).

(** [app.put("/donation-request/:id", verifyToken, ...)] *)
Definition updateDonationRequest (user : Decoded) (req : Request) (s : Store)
  : Reply :=
  let b := body req in
  match ObjectId P (param req) with
  | None => (Threw, s)
  | Some oid =>
      let set : Document :=
        {[ "recipientName" := bson (b !! "recipientName");
           "recipientDistrict" := bson (b !! "recipientDistrict");
           "recipientUpazila" := bson (b !! "recipientUpazila");
           "hospitalName" := bson (b !! "hospitalName");
           "fullAddress" := bson (b !! "fullAddress");
           "bloodGroup" := bson (b !! "bloodGroup");
           "donationDate" := bson (b !! "donationDate");
           "donationTime" := bson (b !! "donationTime");
           "requestMessage" := bson (b !! "requestMessage") ]} in
      let result := updateOne (byId oid) set (requests s) in
      (send (snd result), setRequests (fst result) s)
  end.

(** [app.put("/donation-request/donate/:id", verifyToken, ...)] *)
Definition donate (user : Decoded) (req : Request) (s : Store) : Reply :=
  let donorName := body req !! "donorName" in
  let donorEmail := body req !! "donorEmail" in
  match ObjectId P (param req) with
  | None => (Threw, s)
  | Some oid =>
      let set : Document :=
        {[ "status" := VStr "inprogress";
           "donorName" := bson donorName;
           "donorEmail" := bson donorEmail ]} in
      let result := updateOne (byId oid) set (requests s) in
      (send (snd result), setRequests (fst result) s)
  end.

(** [app.get("/all-blood-donation-requests", verifyToken, ...)] *)
Definition allBloodDonationRequests (user : Decoded) (req : Request) (s : Store)
  : Reply :=
  match findOne (byEmail (email user)) (users s) with
  | None => (Threw, s) (* user is null: reading user.role throws *)
  | Some u =>
      if negb (isStr "admin" (u !! "role")) && negb (isStr "volunteer" (u !! "role"))
      then (sendStatus 403 forbidden, s)
      else (send (PList (find (withStatus req []) (requests s))), s)
  end.

(** ** User accounts and profiles *)

(** [app.post("/users", ...)] *)
Definition addUser (req : Request) (clock : Clock) (s : Store) : Reply :=
  let user := body req in
  let query := [("email", bson (user !! "email"))] in
  match findOne query (users s) with
  | Some _ =>
      (send (PObj {[ "message" := VStr "user already exists";
                     "insertedId" := VNull ]}), s)
  | None =>
      let newUser :=
        <["timestamp" := VDate (clock 0%nat)]>
          (<["status" := VStr "active"]> (<["role" := VStr "donor"]> user)) in
      match insertOne newUser (users s) (nextId s) with
      | None => (Threw, s) (* the insert is refused and nothing catches it *)
      | Some result =>
          (send (snd result), setNextId (N.succ (nextId s)) (setUsers (fst result) s))
      end
  end.

(** [app.get("/users/role/:email", verifyToken, ...)]; a role that is
    [undefined] is left out of the JSON sent. *)
Definition getRole (user : Decoded) (req : Request) (s : Store) : Reply :=
  let email_ := param req in
  if bool_decide (email user <> email_) then (sendStatus 403 forbidden, s)
  else
    let result := findOne (byEmail email_) (users s) in
    (send (PObj match result ≫= (.!! "role") with
                | Some r => {[ "role" := r ]}
                | None => ∅
                end), s).

Definition level (donations : nat) : string :=
  if (10 <? donations)%nat then "Gold"
  else if (5 <? donations)%nat then "Silver" else "Bronze".

Definition num (n : nat) : Value := VNum (Z.of_nat n).

(** [app.get("/user-stats/:email", verifyToken, ...)] *)
Definition userStats (user : Decoded) (req : Request) (clock : Clock) (s : Store)
  : Reply :=
  let email_ := param req in
  if bool_decide (email user <> email_) then (sendStatus 403 forbidden, s)
  else
    let donorStats :=
      find [("donorEmail", VStr email_); ("status", VStr "done")] (requests s) in
    let donations := length donorStats in
    let requesterStats := find [("requesterEmail", VStr email_)] (requests s) in
    let requests_ := length requesterStats in
    let activeRequests :=
      length (List.filter
                (fun r => isStr "pending" (r !! "status")
                          || isStr "inprogress" (r !! "status"))
                requesterStats) in
    let currentMonth := getMonth P (clock 0%nat) in
    let currentYear := getFullYear P (clock 1%nat) in
    let thisMonthDonations :=
      length (List.filter
                (fun d => match jsDate P (d !! "donationDate") with
                          | None => false
                          | Some date =>
                              Z.eqb (getMonth P date) currentMonth
                              && Z.eqb (getFullYear P date) currentYear
                          end)
                donorStats) in
    (send (PObj {[ "donations" := num donations;
                   "requests" := num requests_;
                   "activeRequests" := num activeRequests;
                   "thisMonth" := num thisMonthDonations;
                   "successRate" := VNum (if (0 <? donations)%nat then 100 else 0);
                   "level" := VStr (level donations);
                   "helped" := num donations;
                   "avgResponseTime" := VNum 2 ]}), s).

(** [app.get("/user/:email", verifyToken, ...)] *)
Definition getUser (user : Decoded) (req : Request) (s : Store) : Reply :=
  let email_ := param req in
  match findOne (byEmail email_) (users s) with
  | Some result => (send (PObj result), s)
  | None => (send PNull, s)
  end.

(** [app.patch("/user/:email", verifyToken, ...)] *)
Definition updateUser (user_ : Decoded) (req : Request) (s : Store) : Reply :=
  let email_ := param req in
  let user := body req in
  let set : Document :=
    {[ "name" := bson (user !! "name");
       "avatar" := bson (user !! "avatar");
       "district" := bson (user !! "district");
       "upazila" := bson (user !! "upazila");
       "bloodGroup" := bson (user !! "bloodGroup");
       "phone" := bson (user !! "phone") ]} in
  let result := updateOne (byEmail email_) set (users s) in
  (send (snd result), setUsers (fst result) s).

(** ** Payments *)

(** [app.post("/payments/save-session", verifyToken, ...)] *)
Definition saveSession (user : Decoded) (req : Request) (clock : Clock) (s : Store)
  : Reply :=
  let sessionId := body req !! "sessionId" in
  match stripe P with
  | None => (sendStatus 500 (message "Stripe error"), s)
  | Some retrieve =>
      match retrieve sessionId with
      | None => (sendStatus 500 (message "Error verifying payment"), s)
      | Some session =>
          if String.eqb (payment_status session) "paid" then
            match findOne [("transactionId", bson sessionId)] (payments s) with
            | Some _ =>
                (send (PObj {[ "message" := VStr "Payment already saved";
                               "insertedId" := VNull ]}), s)
            | None =>
                let payment : Document :=
                  {[ "name" := bson (VStr <$> metadata session !! "donorName");
                     "email" := bson (VStr <$> metadata session !! "donorEmail");
                     "amount" := parseFloat P (metadata session !! "amount");
                     "transactionId" := bson sessionId;
                     "date" := VDate (clock 0%nat) ]} in
                match insertOne payment (payments s) (nextId s) with
                | None => (* caught by the handler's try *)
                    (sendStatus 500 (message "Error verifying payment"), s)
                | Some result =>
                    (send (snd result),
                     setNextId (N.succ (nextId s)) (setPayments (fst result) s))
                end
            end
          else (sendStatus 400 (message "Payment not paid"), s)
      end
  end.

(** ** Dashboard analytics: the [monthlyStats] pipeline of [/admin-stats]

    The handler of [/admin-stats] runs this pipeline over the requests; its
    response is built from the other aggregates and leaves the result out. *)

(** [{ $convert: { input, to: "date", onError, onNull } }] *)
Definition convertDate (input : option Value) (onError onNull : Z) : Z :=
  match input with
  | None | Some VNull => onNull
  | Some v => default onError (toDate P v)
  end.

(** The [$project] stage: the [(month, year)] of a request.  The four
    [new Date()] of the stage are evaluated in the order they are written. *)
Definition projectMonthYear (clock : Clock) (d : Document) : Z * Z :=
  (dateMonth P (convertDate (d !! "donationDate") (clock 0%nat) (clock 1%nat)),
   dateYear P (convertDate (d !! "donationDate") (clock 2%nat) (clock 3%nat))).

End Server.

(** The [$group] stage with [count: { $sum: 1 }]: one bucket per key. *)
Fixpoint bump {K} `{EqDecision K} (k : K) (acc : list (K * nat)) : list (K * nat) :=
  match acc with
  | [] => [(k, 1%nat)]
  | (k', n) :: rest =>
      if decide (k = k') then (k', S n) :: rest else (k', n) :: bump k rest
  end.

Definition group {K} `{EqDecision K} (keys : list K) : list (K * nat) :=
  fold_left (fun acc k => bump k acc) keys [].

(** The [$sort] stage, [{ "_id.year": 1, "_id.month": 1 }], on buckets
    keyed by [(month, year)]. *)
Definition byYearMonth (a b : (Z * Z) * nat) : Prop :=
  snd (fst a) < snd (fst b)
  \/ (snd (fst a) = snd (fst b) /\ fst (fst a) <= fst (fst b)).

#[global] Instance byYearMonth_dec a b : Decision (byYearMonth a b).
Proof. unfold byYearMonth. apply _. Defined.

Definition monthlyStats (P : Platform) (clock : Clock) (c : list Document)
  : list ((Z * Z) * nat) :=
  merge_sort byYearMonth (group (map (projectMonthYear P clock) c)).

(** ** The router *)

Inductive Endpoint :=
| PostDonationRequest      (* POST /donation-request *)
| GetDonationRequests      (* GET /donation-requests/:email *)
| PutDonationRequest       (* PUT /donation-request/:id *)
| PutDonate                (* PUT /donation-request/donate/:id *)
| GetAllBloodDonationRequests (* GET /all-blood-donation-requests *)
| PostUsers                (* POST /users *)
| GetUsersRole             (* GET /users/role/:email *)
| GetUserStats             (* GET /user-stats/:email *)
| GetUser                  (* GET /user/:email *)
| PatchUser                (* PATCH /user/:email *)
| PostSaveSession.         (* POST /payments/save-session *)

Definition handle (P : Platform) (ep : Endpoint) (req : Request) (clock : Clock)
  (s : Store) : Reply :=
  match ep with
  | PostDonationRequest =>
      verifyToken P req s (fun user => createDonationRequest P user req s)
  | GetDonationRequests =>
      verifyToken P req s (fun user => getDonationRequests P user req s)
  | PutDonationRequest =>
      verifyToken P req s (fun user => updateDonationRequest P user req s)
  | PutDonate => verifyToken P req s (fun user => donate P user req s)
  | GetAllBloodDonationRequests =>
      verifyToken P req s (fun user => allBloodDonationRequests P user req s)
  | PostUsers => addUser P req clock s
  | GetUsersRole => verifyToken P req s (fun user => getRole P user req s)
  | GetUserStats => verifyToken P req s (fun user => userStats P user req clock s)
  | GetUser => verifyToken P req s (fun user => getUser P user req s)
  | PatchUser => verifyToken P req s (fun user => updateUser P user req s)
  | PostSaveSession =>
      verifyToken P req s (fun user => saveSession P user req clock s)
  end.

(** Requests served one after the other. *)
Fixpoint serve (P : Platform) (calls : list (Endpoint * Request * Clock)) (s : Store)
  : list Outcome * Store :=
  match calls with
  | [] => ([], s)
  | (ep, req, clock) :: rest =>
      let r := handle P ep req clock s in
      let rs := serve P rest (snd r) in
      (fst r :: fst rs, snd rs)
  end.

(** ** The other routes of [index.js] *)

Definition setBlogs (c : list Document) (s : Store) : Store :=
  {| users := users s; requests := requests s; blogs := c;
     payments := payments s; nextId := nextId s |}.

Definition deleteResult (deleted : nat) : Payload :=
  PObj {[ "acknowledged" := VBool true;
          "deletedCount" := VNum (Z.of_nat deleted) ]}.

(** [req.query] of [/search-donors]. *)
Record DonorQuery := {
  q_bloodGroup : option string;
  q_district : option string;
  q_upazila : option string
}.

(** [if (v) query.k = v]: an empty string is falsy. *)
Definition withParam (k : string) (v : option string) (query : Filter) : Filter :=
  match v with
  | None | Some EmptyString => query
  | Some x => (query ++ [(k, VStr x)])%list
  end.

Section Routes.

Context (P : Platform).

(** [collection.deleteOne(flt)]: the first document that satisfies the
    filter is removed. *)
Fixpoint deleteOne (flt : Filter) (c : list Document) : list Document * Payload :=
  match c with
  | [] => ([], deleteResult 0)
  | d :: rest =>
      if matches P flt d then (rest, deleteResult 1)
      else let r := deleteOne flt rest in (d :: fst r, snd r)
  end.

(** The role the security middlewares read: [user?.role]. *)
Definition roleOf (user : Decoded) (s : Store) : option Value :=
  findOne P (byEmail (email user)) (users s) ≫= (.!! "role").

Definition adminsOnly : Payload := message "Forbidden Access! Admins Only.".
Definition volunteersOnly : Payload := message "Forbidden Access! Volunteers Only.".

Definition verifyAdmin (user : Decoded) (s : Store) (next : Reply) : Reply :=
  if negb (isStr "admin" (roleOf user s)) then (sendStatus 403 adminsOnly, s)
  else next.

Definition verifyVolunteer (user : Decoded) (s : Store) (next : Reply) : Reply :=
  if negb (isStr "volunteer" (roleOf user s)) && negb (isStr "admin" (roleOf user s))
  then (sendStatus 403 volunteersOnly, s)
  else next.

(** [app.delete("/donation-request/:id", verifyToken, ...)] *)
Definition deleteDonationRequest (user : Decoded) (req : Request) (s : Store)
  : Reply :=
  match ObjectId P (param req) with
  | None => (Threw, s)
  | Some oid =>
      let result := deleteOne (byId oid) (requests s) in
      (send (snd result), setRequests (fst result) s)
  end.

(** [app.patch("/donation-request-status/:id", verifyToken, ...)] *)
Definition setRequestStatus (user : Decoded) (req : Request) (s : Store) : Reply :=
  let status_ := body req !! "status" in
  match ObjectId P (param req) with
  | None => (Threw, s)
  | Some oid =>
      let result :=
        updateOne P (byId oid) {[ "status" := bson status_ ]} (requests s) in
      (send (snd result), setRequests (fst result) s)
  end.

(** [app.get("/donation-request/:id", verifyToken, ...)] *)
Definition getDonationRequest (user : Decoded) (req : Request) (s : Store) : Reply :=
  match ObjectId P (param req) with
  | None => (Threw, s)
  | Some oid =>
      match findOne P (byId oid) (requests s) with
      | Some result => (send (PObj result), s)
      | None => (send PNull, s)
      end
  end.

(** [app.get("/search-donors", ...)] *)
Definition searchDonors (q : DonorQuery) (s : Store) : Reply :=
  let query :=
    withParam "upazila" (q_upazila q)
      (withParam "district" (q_district q)
         (withParam "bloodGroup" (q_bloodGroup q) [("status", VStr "active")])) in
  (send (PList (find P query (users s))), s).

(** [app.get("/donation-requests", ...)] *)
Definition pendingRequests (s : Store) : Reply :=
  (send (PList (find P [("status", VStr "pending")] (requests s))), s).

(** [app.get("/all-users", verifyToken, verifyAdmin, ...)] *)
Definition allUsers (req : Request) (s : Store) : Reply :=
  (send (PList (find P (withStatus req []) (users s))), s).

(** [app.patch("/users/status/:id", verifyToken, verifyAdmin, ...)] *)
Definition setUserStatus (req : Request) (s : Store) : Reply :=
  let status_ := body req !! "status" in
  match ObjectId P (param req) with
  | None => (Threw, s)
  | Some oid =>
      let result :=
        updateOne P (byId oid) {[ "status" := bson status_ ]} (users s) in
      (send (snd result), setUsers (fst result) s)
  end.

(** [app.patch("/users/role/:id", verifyToken, verifyAdmin, ...)] *)
Definition setUserRole (req : Request) (s : Store) : Reply :=
  let role := body req !! "role" in
  match ObjectId P (param req) with
  | None => (Threw, s)
  | Some oid =>
      let result := updateOne P (byId oid) {[ "role" := bson role ]} (users s) in
      (send (snd result), setUsers (fst result) s)
  end.

(** [app.get("/all-donation-requests", verifyToken, verifyAdmin, ...)] *)
Definition allDonationRequests (req : Request) (s : Store) : Reply :=
  (send (PList (find P (withStatus req []) (requests s))), s).

(** [app.post("/blogs", verifyToken, verifyAdmin, ...)] *)
Definition createBlog (req : Request) (clock : Clock) (s : Store) : Reply :=
  let blog := body req in
  let newBlog :=
    <["createdAt" := VDate (clock 0%nat)]> (<["status" := VStr "draft"]> blog) in
  match insertOne newBlog (blogs s) (nextId s) with
  | None => (Threw, s) (* the insert is refused and nothing catches it *)
  | Some result =>
      (send (snd result), setNextId (N.succ (nextId s)) (setBlogs (fst result) s))
  end.

(** [app.get("/blogs", ...)] *)
Definition getBlogs (req : Request) (s : Store) : Reply :=
  (send (PList (find P (withStatus req []) (blogs s))), s).

(** [app.get("/blogs/:id", ...)] *)
Definition getBlog (req : Request) (s : Store) : Reply :=
  match ObjectId P (param req) with
  | None => (Threw, s)
  | Some oid =>
      match findOne P (byId oid) (blogs s) with
      | Some result => (send (PObj result), s)
      | None => (send PNull, s)
      end
  end.

(** [app.patch("/blogs/status/:id", verifyToken, verifyAdmin, ...)] *)
Definition setBlogStatus (req : Request) (s : Store) : Reply :=
  let status_ := body req !! "status" in
  match ObjectId P (param req) with
  | None => (Threw, s)
  | Some oid =>
      let result :=
        updateOne P (byId oid) {[ "status" := bson status_ ]} (blogs s) in
      (send (snd result), setBlogs (fst result) s)
  end.

(** [app.delete("/blogs/:id", verifyToken, verifyAdmin, ...)] *)
Definition deleteBlog (req : Request) (s : Store) : Reply :=
  match ObjectId P (param req) with
  | None => (Threw, s)
  | Some oid =>
      let result := deleteOne (byId oid) (blogs s) in
      (send (snd result), setBlogs (fst result) s)
  end.

End Routes.

(** The [statusStats] and [userStats] pipelines of [/admin-stats],
    [{ $group: { _id: "$status", count: { $sum: 1 } } }]: a document without
    a [status] is grouped under null. *)
Definition countByStatus (c : list Document) : list (Value * nat) :=
  group (map (fun d => bson (d !! "status")) c).

Inductive Route :=
| DeleteDonationRequest      (* DELETE /donation-request/:id *)
| PatchDonationRequestStatus (* PATCH /donation-request-status/:id *)
| GetDonationRequest         (* GET /donation-request/:id *)
| SearchDonors (q : DonorQuery) (* GET /search-donors *)
| GetPendingRequests         (* GET /donation-requests *)
| GetAllUsers                (* GET /all-users *)
| PatchUserStatus            (* PATCH /users/status/:id *)
| PatchUserRole              (* PATCH /users/role/:id *)
| GetAllDonationRequests     (* GET /all-donation-requests *)
| PostBlogs                  (* POST /blogs *)
| GetBlogs                   (* GET /blogs *)
| GetBlog                    (* GET /blogs/:id *)
| PatchBlogStatus            (* PATCH /blogs/status/:id *)
| DeleteBlog.                (* DELETE /blogs/:id *)

Definition dispatch (P : Platform) (r : Route) (req : Request) (clock : Clock)
  (s : Store) : Reply :=
  let admin (next : Reply) : Reply :=
    verifyToken P req s (fun user => verifyAdmin P user s next) in
  match r with
  | DeleteDonationRequest =>
      verifyToken P req s (fun user => deleteDonationRequest P user req s)
  | PatchDonationRequestStatus =>
      verifyToken P req s (fun user => setRequestStatus P user req s)
  | GetDonationRequest =>
      verifyToken P req s (fun user => getDonationRequest P user req s)
  | SearchDonors q => searchDonors P q s
  | GetPendingRequests => pendingRequests P s
  | GetAllUsers => admin (allUsers P req s)
  | PatchUserStatus => admin (setUserStatus P req s)
  | PatchUserRole => admin (setUserRole P req s)
  | GetAllDonationRequests => admin (allDonationRequests P req s)
  | PostBlogs => admin (createBlog req clock s)
  | GetBlogs => getBlogs P req s
  | GetBlog => getBlog P req s
  | PatchBlogStatus => admin (setBlogStatus P req s)
  | DeleteBlog => admin (deleteBlog P req s)
  end.

(** * The vocabulary of the properties *)

(** The caller passes [verifyToken] as [user]. *)
Definition authenticated (P : Platform) (req : Request) (user : Decoded) : Prop :=
  exists token,
    authorization req ≫= split1 = Some token
    /\ token <> ""
    /\ verifyIdToken P token = inr user.

Definition blockedMessage : Payload :=
  message "Blocked users cannot create donation requests".

Definition guarded : list Endpoint :=
  [GetUsersRole; GetDonationRequests; GetUserStats].



Definition alreadySaved : Payload :=
  PObj {[ "message" := VStr "Payment already saved"; "insertedId" := VNull ]}.

Definition byTransaction (t : string) : Filter := [("transactionId", VStr t)].

(** The processor is configured and reports session [t] as paid. *)
Definition paid (P : Platform) (t : string) (session : Session) : Prop :=
  exists retrieve,
    stripe P = Some retrieve
    /\ retrieve (Some (VStr t)) = Some session
    /\ payment_status session = "paid".

(** A replay of session [t] by some authenticated caller. *)
Definition replay (P : Platform) (t : string) (c : Endpoint * Request * Clock)
  : Prop :=
  fst (fst c) = PostSaveSession
  /\ (exists user, authenticated P (snd (fst c)) user)
  /\ body (snd (fst c)) !! "sessionId" = Some (VStr t).

(** What the bucket of key [k] counts, should several buckets carry [k]. *)
Definition bucketCount {K} `{EqDecision K} (k : K) (stats : list (K * nat)) : nat :=
  sum_list_with (fun b => if decide (fst b = k) then snd b else 0%nat) stats.

(** The bucket of a request at [now]: the month and year of its donation
    date when it has one that converts, those of [now] when the date is
    missing, null or does not convert. *)
Definition bucketOf (P : Platform) (now : Z) (d : Document) : Z * Z :=
  match d !! "donationDate" with
  | None | Some VNull => (dateMonth P now, dateYear P now)
  | Some v =>
      match toDate P v with
      | Some t => (dateMonth P t, dateYear P t)
      | None => (dateMonth P now, dateYear P now)
      end
  end.

(** Every [new Date()] of the run falls in the month of [now]. *)
Definition within (P : Platform) (now : Z) (clock : Clock) : Prop :=
  forall i, dateMonth P (clock i) = dateMonth P now
            /\ dateYear P (clock i) = dateYear P now.

(** The donations of [e] as a donor: the requests [/user-stats] counts. *)
Definition donationsOf (P : Platform) (e : string) (s : Store) : nat :=
  length (find P [("donorEmail", VStr e); ("status", VStr "done")] (requests s)).

(** The level with inclusive thresholds, as the specification words it:
    Silver from 5 donations on, Gold from 10 on. *)
Definition levelFrom (donations : nat) : string :=
  if (10 <=? donations)%nat then "Gold"
  else if (5 <=? donations)%nat then "Silver" else "Bronze".

(** The caller does not pass [verifyToken]. *)
Definition unauthenticated (P : Platform) (req : Request) : Prop :=
  forall user, ~ authenticated P req user.

Definition unauthorized (p : Payload) : Prop :=
  exists m, p = PObj m /\ m !! "message" = Some (VStr "Unauthorized Access!").

(** The routes behind [verifyToken]. *)
Definition protected (r : Route) : bool :=
  match r with
  | SearchDonors _ | GetPendingRequests | GetBlogs | GetBlog => false
  | _ => true
  end.

(** The routes behind [verifyAdmin]. *)
Definition adminOnly : list Route :=
  [GetAllUsers; PatchUserStatus; PatchUserRole; GetAllDonationRequests;
   PostBlogs; PatchBlogStatus; DeleteBlog].

Definition noSpace (s : string) : Prop :=
  Forall (fun c => c <> " "%char) (list_ascii_of_string s).

(** The routes and endpoints that address a donation request by [:id]. *)
Definition byRequestId : list (Route + Endpoint) :=
  [inl DeleteDonationRequest; inl PatchDonationRequestStatus;
   inl GetDonationRequest; inr PutDonationRequest; inr PutDonate].

Definition run (P : Platform) (r : Route + Endpoint) (req : Request) (clock : Clock)
  (s : Store) : Reply :=
  match r with
  | inl r => dispatch P r req clock s
  | inr ep => handle P ep req clock s
  end.


(** The emails of the stored users, in order. *)
Definition emails (s : Store) : list (option Value) :=
  (.!! "email") <$> users s.

(** ** A platform to run the handlers on

    The token is the caller's email, an [ObjectId] is parsed from 24
    hexadecimal digits, a date is a number of months since January 1970. *)

Definition hexDigit (c : ascii) : option N :=
  let n := N_of_ascii c in
  if (48 <=? n)%N && (n <=? 57)%N then Some (n - 48)%N
  else if (97 <=? n)%N && (n <=? 102)%N then Some (n - 87)%N
  else if (65 <=? n)%N && (n <=? 70)%N then Some (n - 55)%N
  else None.

Fixpoint hexValue (s : string) (acc : N) : option N :=
  match s with
  | EmptyString => Some acc
  | String c r =>
      match hexDigit c with
      | Some d => hexValue r (16 * acc + d)%N
      | None => None
      end
  end.

Definition hexObjectId (id : string) : option N :=
  if Nat.eqb (String.length id) 24 then hexValue id 0%N else None.

Definition numberAsDate (v : Value) : option Z :=
  match v with
  | VNum z | VDate z => Some z
  | _ => None
  end.

Definition paidSession : Session :=
  {| payment_status := "paid";
     metadata := {[ "donorName" := "Dana"; "donorEmail" := "dana@example.org";
                    "amount" := "25" ]} |}.

Definition testPlatform : Platform :=
  {| verifyIdToken := fun token => inr {| email := token |};
     ObjectId := hexObjectId;
     matchObject := fun _ _ => false;
     stripe := Some (fun id => match id with
                               | Some (VStr "cs_paid") => Some paidSession
                               | _ => None
                               end);
     parseFloat := fun a => match a with Some "25" => VNum 25 | _ => VNull end;
     toDate := numberAsDate;
     dateMonth := fun t => t mod 12 + 1;
     dateYear := fun t => 1970 + t / 12;
     jsDate := fun v => v ≫= numberAsDate;
     getMonth := fun t => t mod 12;
     getFullYear := fun t => 1970 + t / 12 |}.

Definition bearer (token : string) (p : string) (b : Document) : Request :=
  {| authorization := Some ("Bearer " ++ token); param := p;
     query_status := None; body := b |}.

Definition at_ (now : Z) : Clock := fun _ => now.

(** ** A running example *)

Definition alice : Document :=
  {[ "email" := VStr "alice@example.org"; "role" := VStr "donor";
     "status" := VStr "active" ]}.

Definition bob : Document :=
  {[ "email" := VStr "bob@example.org"; "role" := VStr "donor";
     "status" := VStr "blocked" ]}.

(** A request of Alice that Bob has already fulfilled. *)
Definition request1 : Document :=
  {[ "_id" := VOid 1; "requesterEmail" := VStr "alice@example.org";
     "recipientName" := VStr "Rana"; "donationDate" := VNum 24;
     "status" := VStr "done"; "donorName" := VStr "Bob";
     "donorEmail" := VStr "bob@example.org" ]}.

Definition demoStore : Store :=
  {| users := [alice; bob]; requests := [request1]; blogs := [];
     payments := []; nextId := 2 |}.

Definition asAlice : Decoded := {| email := "alice@example.org" |}.
Definition asBob : Decoded := {| email := "bob@example.org" |}.

Definition id1 : string := "000000000000000000000001".

(** Bob, with his own token, on Alice's profile. *)
Definition bobOnAlice : Request :=
  bearer "bob@example.org" "alice@example.org" {[ "name" := VStr "Mallory" ]}.

(** Alice, with her own token, on her own statistics. *)
Definition aliceOnAlice : Request :=
  bearer "alice@example.org" "alice@example.org" ∅.


Definition saveAgain (token : string) : Endpoint * Request * Clock :=
  (PostSaveSession, bearer token "" {[ "sessionId" := VStr "cs_paid" ]}, at_ 9).

(** Five requests in month 5 (June 1970): two dated month 24 (January
    1972), one dated month 3, one without a date, one with a date that does
    not convert. *)
Definition dated : list Document :=
  [ {[ "donationDate" := VNum 24 ]}; ∅; {[ "donationDate" := VStr "soon" ]};
    {[ "donationDate" := VNum 3 ]}; {[ "donationDate" := VNum 24 ]} ].

Definition doneBy (e : string) (i : N) : Document :=
  {[ "_id" := VOid i; "donorEmail" := VStr e; "status" := VStr "done" ]}.

Definition storeWith (c : list Document) : Store := setRequests c demoStore.

Definition five : list N := [1; 2; 3; 4; 5]%N.
Definition six : list N := [1; 2; 3; 4; 5; 6]%N.
Definition ten : list N := [1; 2; 3; 4; 5; 6; 7; 8; 9; 10]%N.

(** A second store, whose users carry the [_id] the admin routes address. *)
Definition dana : Document :=
  {[ "_id" := VOid 10; "email" := VStr "dana@example.org";
     "role" := VStr "admin"; "status" := VStr "active" ]}.

Definition erin : Document :=
  {[ "_id" := VOid 11; "email" := VStr "erin@example.org";
     "role" := VStr "donor"; "status" := VStr "active";
     "bloodGroup" := VStr "O+" ]}.

Definition request2 : Document :=
  {[ "_id" := VOid 2; "requesterEmail" := VStr "erin@example.org";
     "recipientName" := VStr "Suma"; "status" := VStr "pending" ]}.

Definition post1 : Document :=
  {[ "_id" := VOid 20; "title" := VStr "Why donate"; "status" := VStr "draft" ]}.

Definition clinic : Store :=
  {| users := [dana; erin]; requests := [request1; request2]; blogs := [post1];
     payments := []; nextId := 30 |}.

Definition asDana : Decoded := {| email := "dana@example.org" |}.
Definition asErin : Decoded := {| email := "erin@example.org" |}.

Definition idErin : string := "00000000000000000000000b".
Definition idPost1 : string := "000000000000000000000014".

Definition anonymous (p : string) (b : Document) : Request :=
  {| authorization := None; param := p; query_status := None; body := b |}.

Definition erinAsks : Request :=
  bearer "erin@example.org" "" {[ "bloodGroup" := VStr "O+" ]}.

Definition danaBlocksErin : Request :=
  bearer "dana@example.org" idErin {[ "status" := VStr "blocked" ]}.

Definition danaPromotesErin : Request :=
  bearer "dana@example.org" idErin {[ "role" := VStr "volunteer" ]}.

Definition danaPublishes : Request :=
  bearer "dana@example.org" idPost1 {[ "status" := VStr "published" ]}.

Definition published : Request :=
  {| authorization := None; param := ""; query_status := Some "published";
     body := ∅ |}.

(** * Properties *)

(** Lookups in an object literal: at one of its keys, at another key. *)
Ltac lookup_literal :=
  repeat (rewrite lookup_insert_ne by done);
  first [apply lookup_insert_eq | apply lookup_singleton_eq].



Section Facts.

Context (P : Platform).

Lemma verifyToken_authenticated req s next user :
  authenticated P req user -> verifyToken P req s next = next user.
Proof.
  intros (token & Htok & Hne & Hver). unfold verifyToken.
  rewrite Htok. destruct token as [|c r]; [congruence|]. by rewrite Hver.
Qed.

(** *** Store lemmas *)

Lemma bson_Some v : bson (Some v) = v.
Proof. reflexivity. Qed.

(** Whether a document is taken depends on its [_id] alone. *)
Lemma takes_ext c (doc doc' : Document) :
  doc' !! "_id" = doc !! "_id" -> takes c doc' = takes c doc.
Proof. intros H. unfold takes. by rewrite H. Qed.

Lemma insertOne_taken doc c fresh :
  takes c doc = true ->
  exists id,
    insertOne doc c fresh
    = Some ((c ++ [<["_id" := id]> doc])%list,
            PObj {[ "acknowledged" := VBool true; "insertedId" := id ]})
    /\ (doc !! "_id" = None -> id = VOid fresh).
Proof.
  intros Htakes. unfold insertOne. rewrite Htakes. eexists. split; [reflexivity|].
  by intros ->.
Qed.

Lemma insertOne_refused doc c fresh :
  takes c doc = false -> insertOne doc c fresh = None.
Proof. intros Htakes. unfold insertOne. by rewrite Htakes. Qed.

Lemma findOne_app flt c d :
  findOne P flt (c ++ [d]) =
  match findOne P flt c with
  | Some x => Some x
  | None => if matches P flt d then Some d else None
  end.
Proof.
  unfold findOne. induction c as [|x c IH]; simpl.
  - done.
  - destruct (matches P flt x); [done | apply IH].
Qed.

Lemma matchField_str s v :
  v = Some (VStr s) -> matchField P (VStr s) v = true.
Proof. intros ->. unfold matchField. by rewrite bool_decide_eq_true_2. Qed.

Lemma matches_str k s (d : Document) :
  d !! k = Some (VStr s) -> matches P [(k, VStr s)] d = true.
Proof.
  intros H. unfold matches. cbn [forallb fst snd].
  by rewrite (matchField_str _ _ H).
Qed.

(** A filter reads the fields it names and no other. *)
Lemma matches_ext flt (d d' : Document) :
  Forall (fun kq => d' !! fst kq = d !! fst kq) flt ->
  matches P flt d' = matches P flt d.
Proof.
  unfold matches. induction 1 as [|[k q] flt Hk _ IH]; cbn [forallb fst snd].
  - done.
  - cbn [fst] in Hk. by rewrite Hk, IH.
Qed.

(** [updateOne] rewrites the first match in place and nothing else. *)
Lemma updateOne_found flt set c d :
  findOne P flt c = Some d ->
  exists pre post,
    c = (pre ++ d :: post)%list
    /\ Forall (fun x => matches P flt x = false) pre
    /\ fst (updateOne P flt set c) = (pre ++ (set ∪ d) :: post)%list.
Proof.
  unfold findOne. induction c as [|x c IH]; simpl; [done|].
  destruct (matches P flt x) eqn:Hx.
  - intros [= ->]. by exists [], c.
  - intros Hd. destruct (IH Hd) as (pre & post & -> & Hpre & Hupd).
    exists (x :: pre), post. simpl. rewrite Hupd. auto.
Qed.

Lemma findOne_first flt pre d post :
  Forall (fun x => matches P flt x = false) pre ->
  matches P flt d = true ->
  findOne P flt (pre ++ d :: post) = Some d.
Proof.
  unfold findOne. induction 1 as [|x pre Hx _ IH]; simpl; intros Hd.
  - by rewrite Hd.
  - rewrite Hx. by apply IH.
Qed.

Lemma findOne_matches flt c d :
  findOne P flt c = Some d -> matches P flt d = true.
Proof. unfold findOne. intros H. by apply List.find_some in H as [_ ?]. Qed.

(** *** Creating a donation request *)





(** C2. A caller whose stored profile has status ["blocked"] gets 403 and
    the store, the requests with it, is what it was. *)
Theorem create_request_blocked req clock s user requester :
  authenticated P req user ->
  findOne P (byEmail (email user)) (users s) = Some requester ->
  requester !! "status" = Some (VStr "blocked") ->
  handle P PostDonationRequest req clock s = (sendStatus 403 blockedMessage, s).
Proof.
  intros Hauth Hfind Hstatus. cbn [handle].
  rewrite (verifyToken_authenticated _ _ _ _ Hauth).
  unfold createDonationRequest. rewrite Hfind.
  unfold isStr. by rewrite bool_decide_eq_true_2.
Qed.


(** *** Endpoints that compare the token's email with the path's *)

(** X25. On the role lookup, the own-requests listing and the user
    statistics, a caller whose token email differs from the path email gets
    403 with the fixed message and the store is what it was. *)
Theorem guarded_mismatch_forbidden ep req clock s user :
  ep ∈ guarded ->
  authenticated P req user ->
  email user <> param req ->
  handle P ep req clock s = (sendStatus 403 forbidden, s).
Proof.
  intros Hep Hauth Hne. unfold guarded in Hep.
  rewrite !elem_of_cons, elem_of_nil in Hep.
  destruct Hep as [->|[->|[->|[]]]]; cbn [handle];
    rewrite (verifyToken_authenticated _ _ _ _ Hauth);
    unfold getRole, getDonationRequests, userStats;
    by rewrite bool_decide_eq_true_2.
Qed.

(** *** Updating a donation request in place *)

Lemma updateOne_set flt (set : Document) c d :
  findOne P flt c = Some d ->
  Forall (fun kq => set !! fst kq = None) flt ->
  exists pre post,
    c = (pre ++ d :: post)%list
    /\ fst (updateOne P flt set c) = (pre ++ (set ∪ d) :: post)%list
    /\ findOne P flt (pre ++ (set ∪ d) :: post) = Some (set ∪ d).
Proof.
  intros Hfind Hset.
  destruct (updateOne_found flt set c d Hfind) as (pre & post & -> & Hpre & Hupd).
  exists pre, post. split; [done|]. split; [done|].
  apply findOne_first; [done|].
  rewrite <- (findOne_matches _ _ _ Hfind). apply matches_ext.
  eapply Forall_impl; [exact Hset|]. intros [k q] Hk. by apply lookup_union_r.
Qed.



(** *** Signing up twice *)



Lemma takes_newUser c (b : Document) now :
  takes c (<["timestamp" := VDate now]>
             (<["status" := VStr "active"]> (<["role" := VStr "donor"]> b)))
  = takes c b.
Proof. apply takes_ext. by rewrite !lookup_insert_ne. Qed.


Lemma addUser_refused req clock s e :
  body req !! "email" = Some (VStr e) ->
  findOne P (byEmail e) (users s) = None ->
  takes (users s) (body req) = false ->
  addUser P req clock s = (Threw, s).
Proof.
  intros He Hnone Htakes. unfold addUser.
  rewrite He, bson_Some. fold (byEmail e). rewrite Hnone.
  rewrite <- (takes_newUser _ _ (clock 0%nat)) in Htakes.
  by rewrite (insertOne_refused _ _ _ Htakes).
Qed.


(** *** Saving a payment twice *)

Lemma saveSession_existing user req clock s t session :
  paid P t session ->
  body req !! "sessionId" = Some (VStr t) ->
  is_Some (findOne P (byTransaction t) (payments s)) ->
  saveSession P user req clock s = (send alreadySaved, s).
Proof.
  intros (retrieve & Hstripe & Hret & Hpaid) Hid [p Hp]. unfold saveSession.
  rewrite Hstripe, Hid, Hret, Hpaid, bson_Some.
  fold (byTransaction t). by rewrite Hp.
Qed.

Lemma serve_saveSession_existing calls s t session :
  paid P t session ->
  is_Some (findOne P (byTransaction t) (payments s)) ->
  Forall (replay P t) calls ->
  serve P calls s = (map (fun _ => send alreadySaved) calls, s).
Proof.
  intros Hpaid Hs.
  induction 1 as [|[[ep req] clock] calls (Hep & [user Hauth] & Hid) _ IH]; [done|].
  cbn [fst snd] in Hep, Hauth, Hid. subst ep. cbn [serve handle map].
  rewrite (verifyToken_authenticated _ _ _ _ Hauth).
  rewrite (saveSession_existing user req clock s t session Hpaid Hid Hs).
  cbn [fst snd]. by rewrite IH.
Qed.

(** C6. When the processor reports session [t] as paid and the ledger has
    no entry for [t], saving it appends exactly one entry, with
    [transactionId] [t]; every later replay of [t], served in sequence,
    answers that the payment is saved with [insertedId] null and leaves the
    store, the ledger with it, as it is. *)
Theorem save_session_idempotent req clock s user t session calls :
  authenticated P req user ->
  body req !! "sessionId" = Some (VStr t) ->
  paid P t session ->
  findOne P (byTransaction t) (payments s) = None ->
  Forall (replay P t) calls ->
  exists entry result s',
    handle P PostSaveSession req clock s = (send result, s')
    /\ payments s' = (payments s ++ [entry])%list
    /\ entry !! "transactionId" = Some (VStr t)
    /\ serve P calls s' = (map (fun _ => send alreadySaved) calls, s')
    /\ length (find P (byTransaction t) (payments (snd (serve P calls s')))) = 1%nat.
Proof.
  intros Hauth Hid Hpaid Hnone Hcalls. cbn [handle].
  rewrite (verifyToken_authenticated _ _ _ _ Hauth).
  pose proof Hpaid as (retrieve & Hstripe & Hret & Hstatus).
  unfold saveSession. rewrite Hstripe, Hid, Hret, Hstatus, bson_Some.
  fold (byTransaction t). rewrite Hnone.
  match goal with |- context [insertOne ?doc _ _] =>
    destruct (insertOne_taken doc (payments s) (nextId s)) as (id & -> & _);
      [reflexivity|]
  end.
  cbn [fst snd].
  eexists _, _, _. split; [reflexivity|]. cbn [payments setNextId setPayments].
  split; [reflexivity|].
  match goal with |- ?entry !! _ = _ /\ _ =>
    assert (Hentry : entry !! "transactionId" = Some (VStr t))
  end.
  { rewrite !lookup_insert_ne by done. apply lookup_insert_eq. }
  split; [exact Hentry|].
  match goal with |- serve P calls ?s' = _ /\ _ =>
    assert (Hserve : serve P calls s' = (map (fun _ => send alreadySaved) calls, s'))
  end.
  { apply (serve_saveSession_existing _ _ t session); [done| |done].
    cbn [payments setNextId setPayments]. rewrite findOne_app, Hnone.
    unfold byTransaction. rewrite (matches_str _ _ _ Hentry). by eexists. }
  split; [exact Hserve|]. rewrite Hserve. cbn [snd payments setNextId setPayments].
  unfold find. rewrite List.filter_app, length_app. cbn [List.filter].
  unfold byTransaction at 2. rewrite (matches_str _ _ _ Hentry). cbn [length].
  assert (Hnil : List.filter (matches P (byTransaction t)) (payments s) = []).
  { revert Hnone. unfold findOne. generalize (payments s) as c.
    induction c as [|x c IH]; cbn [List.find List.filter]; [done|].
    destruct (matches P (byTransaction t) x); [done | apply IH]. }
  by rewrite Hnil.
Qed.

End Facts.

(** *** Grouping and counting *)

Section Group.

Context {K : Type} {EqK : EqDecision K}.

Implicit Types (k : K) (acc : list (K * nat)).

Lemma bucketCount_bump k k' acc :
  bucketCount k (bump k' acc)
  = (bucketCount k acc + if decide (k' = k) then 1 else 0)%nat.
Proof.
  unfold bucketCount. induction acc as [|[k0 n] acc IH]; cbn [bump sum_list_with fst snd].
  - destruct (decide (k' = k)); lia.
  - destruct (decide (k' = k0)) as [->|Hne]; cbn [sum_list_with fst snd].
    + destruct (decide (k0 = k)); lia.
    + rewrite IH. destruct (decide (k0 = k)), (decide (k' = k)); lia.
Qed.

Lemma total_bump k acc :
  sum_list_with snd (bump k acc) = S (sum_list_with snd acc).
Proof.
  induction acc as [|[k0 n] acc IH]; cbn [bump sum_list_with snd]; [done|].
  destruct (decide (k = k0)); cbn [sum_list_with snd]; [done|]. rewrite IH. lia.
Qed.

Lemma keys_bump k acc :
  (bump k acc).*1 = if decide (k ∈ acc.*1) then acc.*1 else (acc.*1 ++ [k])%list.
Proof.
  induction acc as [|[k0 n] acc IH]; cbn [bump fmap list_fmap fst].
  - rewrite decide_False by apply not_elem_of_nil. done.
  - destruct (decide (k = k0)) as [->|Hne]; cbn [fmap list_fmap fst].
    + rewrite decide_True by apply list_elem_of_here. done.
    + fold (fmap (M:=list) (@fst K nat)). rewrite IH.
      destruct (decide (k ∈ acc.*1)) as [Hin|Hin].
      * rewrite decide_True by (by apply list_elem_of_further). done.
      * rewrite decide_False; [done|]. rewrite elem_of_cons. tauto.
Qed.

Lemma NoDup_bump k acc : NoDup acc.*1 -> NoDup (bump k acc).*1.
Proof.
  intros Hacc. rewrite keys_bump. destruct (decide (k ∈ acc.*1)); [done|].
  apply NoDup_app. split; [done|]. split; [|apply NoDup_singleton].
  intros x Hx. rewrite list_elem_of_singleton. by intros ->.
Qed.

Lemma elem_of_keys_bump k k' acc :
  k ∈ (bump k' acc).*1 <-> k = k' \/ k ∈ acc.*1.
Proof.
  rewrite keys_bump. destruct (decide (k' ∈ acc.*1)).
  - split; [tauto|]. by intros [->|?].
  - rewrite elem_of_app, list_elem_of_singleton. tauto.
Qed.

(** Grouping the keys [f d] of a collection, from the buckets [acc] on. *)
Lemma fold_bump_spec {A} (f : A -> K) (c : list A) acc :
  let stats := fold_left (fun acc k => bump k acc) (map f c) acc in
  (NoDup acc.*1 -> NoDup stats.*1)
  /\ (forall k, bucketCount k stats
                = (bucketCount k acc + length (filter (fun d => f d = k) c))%nat)
  /\ sum_list_with snd stats = (sum_list_with snd acc + length c)%nat
  /\ (forall k, k ∈ stats.*1 <-> k ∈ acc.*1 \/ k ∈ map f c).
Proof.
  revert acc. induction c as [|d c IH]; intros acc; cbn [map fold_left].
  - cbn zeta. split; [done|]. split; [|split].
    + intros k. rewrite filter_nil. cbn [length]. lia.
    + cbn [length]. lia.
    + intros k. rewrite elem_of_nil. tauto.
  - destruct (IH (bump (f d) acc)) as (Hnd & Hcount & Htotal & Hkeys).
    cbn zeta in *. split; [|split; [|split]].
    + intros Hacc. by apply Hnd, NoDup_bump.
    + intros k. rewrite Hcount, bucketCount_bump, filter_cons.
      destruct (decide (f d = k)); cbn [length]; lia.
    + rewrite Htotal, total_bump. cbn [length]. lia.
    + intros k. rewrite Hkeys, elem_of_keys_bump, elem_of_cons. tauto.
Qed.

Lemma group_spec {A} (f : A -> K) (c : list A) :
  NoDup (group (map f c)).*1
  /\ (forall k, bucketCount k (group (map f c))
                = length (filter (fun d => f d = k) c))
  /\ sum_list_with snd (group (map f c)) = length c
  /\ (forall d, d ∈ c -> f d ∈ (group (map f c)).*1).
Proof.
  destruct (fold_bump_spec f c []) as (Hnd & Hcount & Htotal & Hkeys).
  cbn zeta in *. fold (group (map f c)) in *. split; [|split; [|split]].
  - apply Hnd. constructor.
  - intros k. by rewrite Hcount.
  - by rewrite Htotal.
  - intros d Hd. apply Hkeys. right. by apply (list_elem_of_fmap_2 f).
Qed.

End Group.

(** *** The monthly series *)

Lemma projectMonthYear_bucketOf P clock now d :
  within P now clock -> projectMonthYear P clock d = bucketOf P now d.
Proof.
  intros Hnow. unfold projectMonthYear, bucketOf, convertDate.
  pose proof (Hnow 0%nat) as [H0 _]. pose proof (Hnow 1%nat) as [H1 _].
  pose proof (Hnow 2%nat) as [_ H2]. pose proof (Hnow 3%nat) as [_ H3].
  destruct (d !! "donationDate") as [v|]; [|by rewrite H1, H3].
  destruct v; try (by rewrite H1, H3);
    (destruct (toDate P _); cbn [default from_option id]; [done | by rewrite H0, H2]).
Qed.

(** C8. In the monthly series every request is counted once, in one
    bucket: the keys of the series are pairwise distinct, the bucket of each
    request is among them, the bucket of a key counts the requests that
    belong to it, and the counts add up to the number of requests.  A request
    belongs to the month and year of its donation date when that converts,
    and to those of the current date when it is missing or does not. *)
Theorem monthly_stats_buckets P clock now c :
  within P now clock ->
  let stats := monthlyStats P clock c in
  NoDup stats.*1
  /\ (forall d, d ∈ c -> bucketOf P now d ∈ stats.*1)
  /\ (forall k, bucketCount k stats
                = length (filter (fun d => bucketOf P now d = k) c))
  /\ sum_list_with snd stats = length c.
Proof.
  intros Hnow stats. subst stats. unfold monthlyStats.
  assert (Hmap : map (projectMonthYear P clock) c = map (bucketOf P now) c).
  { apply map_ext. intros d. by apply projectMonthYear_bucketOf. }
  rewrite Hmap.
  destruct (group_spec (bucketOf P now) c) as (Hnd & Hkeys & Hcount & Htotal).
  pose proof (merge_sort_Permutation byYearMonth (group (map (bucketOf P now) c)))
    as Hperm.
  split; [|split; [|split]].
  - by rewrite Hperm.
  - intros d Hd. rewrite Hperm. by apply Htotal.
  - intros k. unfold bucketCount. rewrite Hperm. apply Hkeys.
  - by rewrite Hperm.
Qed.

(** *** The donor level *)

(** C9, as the code has it. The statistics of a caller report the number of
    requests they are the donor of with status ["done"], and a level that is
    Gold above 10 donations, Silver above 5 and up to 10, Bronze up to 5. *)
Theorem user_stats_level P req clock s user :
  authenticated P req user ->
  email user = param req ->
  let n := donationsOf P (email user) s in
  exists stats,
    handle P GetUserStats req clock s = (send (PObj stats), s)
    /\ stats !! "donations" = Some (num n)
    /\ ((10 < n)%nat -> stats !! "level" = Some (VStr "Gold"))
    /\ ((5 < n <= 10)%nat -> stats !! "level" = Some (VStr "Silver"))
    /\ ((n <= 5)%nat -> stats !! "level" = Some (VStr "Bronze")).
Proof.
  intros Hauth Hself n. cbn [handle].
  rewrite (verifyToken_authenticated _ _ _ _ _ Hauth).
  unfold userStats. rewrite bool_decide_eq_false_2 by (intros Hne; by apply Hne).
  eexists. split; [reflexivity|].
  fold (donationsOf P (param req) s). rewrite <- Hself. fold n.
  split; [lookup_literal|].
  assert (Hlevel : forall m : Document, (<["level" := VStr (level n)]> m) !! "level"
                                         = Some (VStr (level n)))
    by (intros; apply lookup_insert_eq).
  unfold level in *.
  split; [|split]; intros Hn; rewrite !lookup_insert_ne by done.
  - rewrite Hlevel. by rewrite (proj2 (Nat.ltb_lt 10 n)) by lia.
  - rewrite Hlevel. rewrite (proj2 (Nat.ltb_ge 10 n)) by lia.
    by rewrite (proj2 (Nat.ltb_lt 5 n)) by lia.
  - rewrite Hlevel. rewrite (proj2 (Nat.ltb_ge 10 n)) by lia.
    by rewrite (proj2 (Nat.ltb_ge 5 n)) by lia.
Qed.

(** * The properties on the running example *)

Ltac authenticate token :=
  exists token; split; [reflexivity | split; [discriminate | reflexivity]].



Lemma create_request_blocked_witness :
  handle testPlatform PostDonationRequest
    (bearer "bob@example.org" "" {[ "bloodGroup" := VStr "O+" ]}) (at_ 0) demoStore
  = (sendStatus 403 blockedMessage, demoStore).
Proof.
  apply (create_request_blocked testPlatform _ (at_ 0) demoStore asBob bob).
  - authenticate "bob@example.org".
  - reflexivity.
  - reflexivity.
Defined.


Lemma guarded_mismatch_forbidden_witness :
  handle testPlatform GetUsersRole
    (bearer "bob@example.org" "alice@example.org" ∅) (at_ 0) demoStore
  = (sendStatus 403 forbidden, demoStore).
Proof.
  apply (guarded_mismatch_forbidden testPlatform GetUsersRole _ (at_ 0) demoStore asBob).
  - apply list_elem_of_here.
  - authenticate "bob@example.org".
  - discriminate.
Defined.

(** C3. The two profile endpoints do not compare the token's email with
    the path's, as the three other [:email] endpoints do: with Bob's token and
    Alice's email in the path, the profile read answers 200 with Alice's
    stored document, and the profile update answers 200 and rewrites it, where
    the claim has 403, no data returned and nothing modified. *)
Lemma profile_endpoints_unguarded :
  authenticated testPlatform bobOnAlice asBob
  /\ email asBob <> param bobOnAlice
  /\ handle testPlatform GetUser bobOnAlice (at_ 0) demoStore
     = (send (PObj alice), demoStore)
  /\ fst (handle testPlatform PatchUser bobOnAlice (at_ 0) demoStore)
     = send (updateResult 1 1)
  /\ alice !! "name" = None
  /\ (users (snd (handle testPlatform PatchUser bobOnAlice (at_ 0) demoStore))
        !! 0%nat) ≫= (.!! "name") = Some (VStr "Mallory").
Proof.
  split; [authenticate "bob@example.org"|].
  split; [discriminate|]. repeat split; reflexivity.
Qed.





Lemma save_session_idempotent_witness :
  exists entry result s',
    handle testPlatform PostSaveSession
      (bearer "alice@example.org" "" {[ "sessionId" := VStr "cs_paid" ]})
      (at_ 8) demoStore
    = (send result, s')
    /\ payments s' = [entry]
    /\ entry !! "transactionId" = Some (VStr "cs_paid")
    /\ serve testPlatform [saveAgain "alice@example.org"; saveAgain "bob@example.org"] s'
       = ([send alreadySaved; send alreadySaved], s').
Proof.
  destruct (save_session_idempotent testPlatform
              (bearer "alice@example.org" "" {[ "sessionId" := VStr "cs_paid" ]})
              (at_ 8) demoStore asAlice "cs_paid" paidSession
              [saveAgain "alice@example.org"; saveAgain "bob@example.org"])
    as (entry & result & s' & Hrun & Hledger & Hid & Hserve & _).
  - authenticate "alice@example.org".
  - reflexivity.
  - eexists. split; [reflexivity|]. split; reflexivity.
  - reflexivity.
  - repeat constructor.
    + exists asAlice. authenticate "alice@example.org".
    + exists asBob. authenticate "bob@example.org".
  - exists entry, result, s'. by repeat split.
Defined.

Example monthlyStats_dated :
  monthlyStats testPlatform (at_ 5) dated
  = [((4, 1970), 1%nat); ((6, 1970), 2%nat); ((1, 1972), 2%nat)].
Proof. reflexivity. Qed.

Lemma monthly_stats_buckets_witness :
  let stats := monthlyStats testPlatform (at_ 5) dated in
  NoDup stats.*1
  /\ (forall d, d ∈ dated -> bucketOf testPlatform 5 d ∈ stats.*1)
  /\ (forall k, bucketCount k stats
                = length (filter (fun d => bucketOf testPlatform 5 d = k) dated))
  /\ sum_list_with snd stats = length dated.
Proof.
  apply (monthly_stats_buckets testPlatform (at_ 5) 5 dated).
  intros i. split; reflexivity.
Defined.

Lemma user_stats_level_witness :
  exists stats,
    handle testPlatform GetUserStats
      (bearer "alice@example.org" "alice@example.org" ∅) (at_ 5)
      (storeWith (doneBy "alice@example.org" <$> six))
    = (send (PObj stats), storeWith (doneBy "alice@example.org" <$> six))
    /\ stats !! "donations" = Some (VNum 6)
    /\ stats !! "level" = Some (VStr "Silver").
Proof.
  destruct (user_stats_level testPlatform
              (bearer "alice@example.org" "alice@example.org" ∅) (at_ 5)
              (storeWith (doneBy "alice@example.org" <$> six)) asAlice)
    as (stats & Hrun & Hn & _ & Hsilver & _).
  - authenticate "alice@example.org".
  - reflexivity.
  - exists stats. split; [exact Hrun|]. split; [exact Hn|].
    apply Hsilver. vm_compute. split; lia.
Defined.

(** C9 as stated fails at both thresholds: a caller with exactly 5
    donations is Bronze where the claim says Silver, and one with exactly 10
    is Silver where the claim says Gold. *)
Lemma level_threshold_counterexample :
  (exists stats,
     handle testPlatform GetUserStats aliceOnAlice (at_ 5)
       (storeWith (doneBy "alice@example.org" <$> five))
     = (send (PObj stats), storeWith (doneBy "alice@example.org" <$> five))
     /\ stats !! "donations" = Some (VNum 5)
     /\ stats !! "level" = Some (VStr "Bronze")
     /\ levelFrom 5 = "Silver")
  /\ (exists stats,
        handle testPlatform GetUserStats aliceOnAlice (at_ 5)
          (storeWith (doneBy "alice@example.org" <$> ten))
        = (send (PObj stats), storeWith (doneBy "alice@example.org" <$> ten))
        /\ stats !! "donations" = Some (VNum 10)
        /\ stats !! "level" = Some (VStr "Silver")
        /\ levelFrom 10 = "Gold").
Proof.
  split; (eexists; split; [reflexivity | repeat split; reflexivity]).
Qed.

(** * The rest of the server *)

Section MoreFacts.

Context (P : Platform).

(** *** The token check *)

Lemma verifyToken_unauthenticated req s next :
  unauthenticated P req ->
  exists p, unauthorized p /\ verifyToken P req s next = (sendStatus 401 p, s).
Proof.
  intros Hun. unfold verifyToken, message.
  destruct (authorization req ≫= split1) as [[|c r]|] eqn:Htok.
  - eexists. split; [|reflexivity]. eexists. split; [reflexivity|]. lookup_literal.
  - destruct (verifyIdToken P (String c r)) as [err|user] eqn:Hver.
    + eexists. split; [|reflexivity]. eexists. split; [reflexivity|]. lookup_literal.
    + destruct (Hun user). exists (String c r). by repeat split.
  - eexists. split; [|reflexivity]. eexists. split; [reflexivity|]. lookup_literal.
Qed.

(** X1. When the request brings no token that verifies, [verifyToken]
    answers 401 with its fixed message, does not run the handler behind it,
    whatever that handler is, and leaves the store as it was.  So do the
    twenty routes of the model that are registered behind it: every endpoint
    of [handle] but the sign-up, and every route of [dispatch] but the donor
    search, the pending listing and the two blog reads. *)
Theorem unauthenticated_rejected req clock s :
  unauthenticated P req ->
  (forall next : Decoded -> Reply,
     exists p, unauthorized p /\ verifyToken P req s next = (sendStatus 401 p, s))
  /\ (forall ep, ep <> PostUsers ->
        exists p, unauthorized p /\ handle P ep req clock s = (sendStatus 401 p, s))
  /\ (forall r, protected r = true ->
        exists p, unauthorized p /\ dispatch P r req clock s = (sendStatus 401 p, s)).
Proof.
  intros Hun. split; [|split].
  - intros next. by apply verifyToken_unauthenticated.
  - intros ep Hep. destruct ep; try done; cbn [handle];
      by apply verifyToken_unauthenticated.
  - intros r Hr. destruct r; try done; cbn [dispatch];
      by apply verifyToken_unauthenticated.
Qed.

Lemma uptoSpace_noSpace t : noSpace t -> uptoSpace t = t.
Proof.
  unfold noSpace. induction t as [|c t IH]; cbn [list_ascii_of_string uptoSpace].
  - done.
  - intros Hc. apply Forall_cons in Hc as [Hc Ht]. unfold isSpace.
    rewrite bool_decide_eq_false_2 by done. by rewrite IH.
Qed.

Lemma afterSpace_scheme scheme t :
  noSpace scheme -> afterSpace (scheme ++ " " ++ t) = Some t.
Proof.
  unfold noSpace.
  induction scheme as [|c scheme IH]; cbn [list_ascii_of_string String.append afterSpace].
  - done.
  - intros Hc. apply Forall_cons in Hc as [Hc Ht].
    change (afterSpace (String c (scheme ++ " " ++ t)) = Some t).
    cbn [afterSpace]. unfold isSpace.
    rewrite bool_decide_eq_false_2 by done. by apply IH.
Qed.

(** X2. The token is the second word of the header, whatever the first word
    is: a header [scheme token] passes the check as [user] as soon as the
    token verifies as [user]; the scheme is not compared with ["Bearer"]. *)
Theorem any_scheme_authenticates scheme token user p q b :
  noSpace scheme ->
  noSpace token ->
  token <> "" ->
  verifyIdToken P token = inr user ->
  authenticated P
    {| authorization := Some (scheme ++ " " ++ token); param := p;
       query_status := q; body := b |}
    user.
Proof.
  intros Hscheme Htoken Hne Hver. exists token. split; [|done].
  change (uptoSpace <$> afterSpace (scheme ++ " " ++ token) = Some token).
  rewrite (afterSpace_scheme _ _ Hscheme).
  change (Some (uptoSpace token) = Some token).
  by rewrite (uptoSpace_noSpace _ Htoken).
Qed.

(** *** The admin check *)

Lemma verifyAdmin_rejects user s next :
  roleOf P user s <> Some (VStr "admin") ->
  verifyAdmin P user s next = (sendStatus 403 (adminsOnly), s).
Proof.
  intros Hrole. unfold verifyAdmin, isStr.
  by rewrite bool_decide_eq_false_2.
Qed.

Lemma verifyAdmin_admits user s next :
  roleOf P user s = Some (VStr "admin") -> verifyAdmin P user s next = next.
Proof.
  intros Hrole. unfold verifyAdmin, isStr. by rewrite bool_decide_eq_true_2.
Qed.

(** X3. On the seven admin routes a caller whose stored role is not ["admin"],
    or who has no stored profile at all, gets 403 and the store is what it
    was: the missing profile is a refusal here, not an exception. *)
Theorem admin_only_forbidden r req clock s user :
  r ∈ adminOnly ->
  authenticated P req user ->
  roleOf P user s <> Some (VStr "admin") ->
  dispatch P r req clock s = (sendStatus 403 adminsOnly, s).
Proof.
  intros Hr Hauth Hrole. unfold adminOnly in Hr.
  rewrite !elem_of_cons, elem_of_nil in Hr.
  destruct Hr as [->|[->|[->|[->|[->|[->|[->|[]]]]]]]]; cbn [dispatch];
    rewrite (verifyToken_authenticated _ _ _ _ _ Hauth);
    by apply verifyAdmin_rejects.
Qed.

(** *** More store lemmas *)

Lemma find_spec flt c d :
  d ∈ find P flt c <-> d ∈ c /\ matches P flt d = true.
Proof. unfold find. rewrite !list_elem_of_In. apply List.filter_In. Qed.

Lemma matches_app (a b : Filter) d :
  matches P (a ++ b)%list d = matches P a d && matches P b d.
Proof. unfold matches. apply List.forallb_app. Qed.

Lemma matches_one k q d : matches P [(k, q)] d = matchField P q (d !! k).
Proof. unfold matches. cbn [forallb fst snd]. apply andb_true_r. Qed.

Lemma matchField_str_ne s s' :
  s <> s' -> matchField P (VStr s) (Some (VStr s')) = false.
Proof.
  intros Hne. unfold matchField.
  rewrite bool_decide_eq_false_2 by congruence.
  by rewrite bool_decide_eq_false_2 by (by intros [? _]).
Qed.

Lemma findOne_None flt c :
  findOne P flt c = None <-> Forall (fun x => matches P flt x = false) c.
Proof.
  unfold findOne. induction c as [|x c IH]; cbn [List.find].
  - split; [constructor | done].
  - destruct (matches P flt x) eqn:Hx.
    + split; [done|]. intros Hall. apply Forall_cons in Hall as [Hx' _]. congruence.
    + rewrite IH. split; [by constructor|]. intros Hall. by apply Forall_cons in Hall as [_ ?].
Qed.


Lemma updateOne_snd_found flt set c d :
  findOne P flt c = Some d ->
  exists modified, snd (updateOne P flt set c) = updateResult 1 modified.
Proof.
  unfold findOne. induction c as [|x c IH]; cbn [List.find updateOne]; [done|].
  destruct (matches P flt x); [by eexists | apply IH].
Qed.


Lemma deleteOne_found flt c d :
  findOne P flt c = Some d ->
  exists pre post,
    c = (pre ++ d :: post)%list
    /\ Forall (fun x => matches P flt x = false) pre
    /\ deleteOne P flt c = ((pre ++ post)%list, deleteResult 1).
Proof.
  unfold findOne. induction c as [|x c IH]; cbn [List.find deleteOne]; [done|].
  destruct (matches P flt x) eqn:Hx.
  - intros [= ->]. by exists [], c.
  - intros Hd. destruct (IH Hd) as (pre & post & -> & Hpre & Hdel).
    exists (x :: pre), post. rewrite Hdel. split; [done|]. split; [|done].
    by constructor.
Qed.

Lemma findOne_app_None flt (pre post : list Document) :
  Forall (fun x => matches P flt x = false) pre ->
  findOne P flt (pre ++ post)%list = findOne P flt post.
Proof.
  unfold findOne. induction 1 as [|x pre Hx _ IH]; cbn [List.find app]; [done|].
  by rewrite Hx.
Qed.

Lemma find_nil c : find P [] c = c.
Proof.
  unfold find. induction c as [|x c IH]; cbn [List.filter matches forallb]; [done|].
  f_equal. apply IH.
Qed.


Lemma setUsers_same s : setUsers (users s) s = s.
Proof. by destruct s. Qed.

Lemma setBlogs_same s : setBlogs (blogs s) s = s.
Proof. by destruct s. Qed.

(** *** The public listing of pending requests *)


(** *** The life of a donation request *)





(** X8. Deleting removes the request the id addresses and no other, whoever
    the authenticated caller is; when no later request carries the id, reading
    the id afterwards answers null. *)
Theorem delete_removes_request req clock s user oid d :
  authenticated P req user ->
  ObjectId P (param req) = Some oid ->
  findOne P (byId oid) (requests s) = Some d ->
  exists pre post,
    requests s = (pre ++ d :: post)%list
    /\ dispatch P DeleteDonationRequest req clock s =
         (send (deleteResult 1), setRequests (pre ++ post) s)
    /\ (findOne P (byId oid) post = None ->
        dispatch P GetDonationRequest req clock (setRequests (pre ++ post) s)
        = (send PNull, setRequests (pre ++ post) s)).
Proof.
  intros Hauth Hoid Hfind.
  destruct (deleteOne_found _ _ _ Hfind) as (pre & post & Hc & Hpre & Hdel).
  exists pre, post. cbn [dispatch].
  rewrite !(verifyToken_authenticated _ _ _ _ _ Hauth).
  unfold deleteDonationRequest, getDonationRequest. rewrite Hoid, Hdel.
  split; [done|]. split; [done|].
  intros Hpost. cbn [requests setRequests].
  by rewrite (findOne_app_None _ _ _ Hpre), Hpost.
Qed.


(** X10. An id that [ObjectId] refuses makes every route that takes one end in
    an uncaught exception, the store untouched: the five request routes for
    any authenticated caller, the public blog read for anyone, and the four
    admin routes for an admin. *)
Theorem malformed_id_throws req clock s :
  ObjectId P (param req) = None ->
  (forall r user, r ∈ byRequestId -> authenticated P req user ->
     run P r req clock s = (Threw, s))
  /\ dispatch P GetBlog req clock s = (Threw, s)
  /\ (forall r user,
        r ∈ [PatchUserStatus; PatchUserRole; PatchBlogStatus; DeleteBlog] ->
        authenticated P req user ->
        roleOf P user s = Some (VStr "admin") ->
        dispatch P r req clock s = (Threw, s)).
Proof.
  intros Hoid. split; [|split].
  - intros r user Hr Hauth. unfold byRequestId in Hr.
    rewrite !elem_of_cons, elem_of_nil in Hr.
    destruct Hr as [->|[->|[->|[->|[->|[]]]]]]; cbn [run dispatch handle];
      rewrite (verifyToken_authenticated _ _ _ _ _ Hauth);
      unfold deleteDonationRequest, setRequestStatus, getDonationRequest,
        updateDonationRequest, donate;
      by rewrite Hoid.
  - cbn [dispatch]. unfold getBlog. by rewrite Hoid.
  - intros r user Hr Hauth Hrole. rewrite !elem_of_cons, elem_of_nil in Hr.
    destruct Hr as [->|[->|[->|[->|[]]]]]; cbn [dispatch];
      rewrite (verifyToken_authenticated _ _ _ _ _ Hauth),
        (verifyAdmin_admits _ _ _ Hrole);
      unfold setUserStatus, setUserRole, setBlogStatus, deleteBlog;
      by rewrite Hoid.
Qed.

(** *** Profiles, status and role *)

Lemma updateOne_first flt set (pre post : list Document) d :
  Forall (fun x => matches P flt x = false) pre ->
  matches P flt d = true ->
  fst (updateOne P flt set (pre ++ d :: post)%list) = (pre ++ (set ∪ d) :: post)%list.
Proof.
  induction 1 as [|x pre Hx _ IH]; cbn [updateOne app]; intros Hd.
  - by rewrite Hd.
  - rewrite Hx. cbn [fst]. by rewrite IH.
Qed.

(** Two filters that find the same document find it at the same place. *)
Lemma findOne_same_place flt flt' c d :
  findOne P flt c = Some d ->
  findOne P flt' c = Some d ->
  exists pre post,
    c = (pre ++ d :: post)%list
    /\ Forall (fun x => matches P flt x = false) pre
    /\ Forall (fun x => matches P flt' x = false) pre.
Proof.
  intros H1 H2.
  pose proof (findOne_matches _ _ _ _ H1) as Hm1.
  pose proof (findOne_matches _ _ _ _ H2) as Hm2.
  revert H1 H2. unfold findOne.
  induction c as [|x c IH]; cbn [List.find]; [done|].
  destruct (matches P flt x) eqn:Hx, (matches P flt' x) eqn:Hx'.
  - intros [= ->] _. by exists [], c.
  - intros [= ->]. congruence.
  - intros _ [= ->]. congruence.
  - intros H1 H2. destruct (IH H1 H2) as (pre & post & -> & Hpre & Hpre').
    exists (x :: pre), post. split; [done|]. split; by constructor.
Qed.

(** An update through one filter, seen through another that finds the same
    document and whose fields the update does not write. *)
Lemma updateOne_seen flt flt' (set : Document) c d :
  findOne P flt c = Some d ->
  findOne P flt' c = Some d ->
  Forall (fun kq => set !! fst kq = None) flt' ->
  findOne P flt' (fst (updateOne P flt set c)) = Some (set ∪ d).
Proof.
  intros H1 H2 Hset.
  destruct (findOne_same_place _ _ _ _ H1 H2) as (pre & post & -> & Hpre & Hpre').
  rewrite (updateOne_first _ _ _ _ _ Hpre (findOne_matches _ _ _ _ H1)).
  apply findOne_first; [done|].
  rewrite <- (findOne_matches _ _ _ _ H2). apply matches_ext.
  eapply Forall_impl; [exact Hset|]. intros [k q] Hk. by apply lookup_union_r.
Qed.


Lemma admin_route req s user next :
  authenticated P req user ->
  roleOf P user s = Some (VStr "admin") ->
  verifyToken P req s (fun user => verifyAdmin P user s next) = next.
Proof.
  intros Hauth Hrole. rewrite (verifyToken_authenticated _ _ _ _ _ Hauth).
  by apply verifyAdmin_admits.
Qed.

Lemma setUserStatus_seen reqA clockA s admin oid d e :
  authenticated P reqA admin ->
  roleOf P admin s = Some (VStr "admin") ->
  ObjectId P (param reqA) = Some oid ->
  findOne P (byId oid) (users s) = Some d ->
  findOne P (byEmail e) (users s) = Some d ->
  let s' := snd (dispatch P PatchUserStatus reqA clockA s) in
  requests s' = requests s
  /\ findOne P (byEmail e) (users s')
     = Some ({[ "status" := bson (body reqA !! "status") ]} ∪ d).
Proof.
  intros Hauth Hrole Hoid Hid He s'. subst s'. cbn [dispatch].
  rewrite (admin_route _ _ _ _ Hauth Hrole). unfold setUserStatus. rewrite Hoid.
  cbn [snd users requests setUsers]. split; [done|].
  apply updateOne_seen; [done..|]. repeat constructor.
Qed.

Lemma setUserRole_seen reqA clockA s admin oid d e :
  authenticated P reqA admin ->
  roleOf P admin s = Some (VStr "admin") ->
  ObjectId P (param reqA) = Some oid ->
  findOne P (byId oid) (users s) = Some d ->
  findOne P (byEmail e) (users s) = Some d ->
  let s' := snd (dispatch P PatchUserRole reqA clockA s) in
  requests s' = requests s
  /\ findOne P (byEmail e) (users s')
     = Some ({[ "role" := bson (body reqA !! "role") ]} ∪ d).
Proof.
  intros Hauth Hrole Hoid Hid He s'. subst s'. cbn [dispatch].
  rewrite (admin_route _ _ _ _ Hauth Hrole). unfold setUserRole. rewrite Hoid.
  cbn [snd users requests setUsers]. split; [done|].
  apply updateOne_seen; [done..|]. repeat constructor.
Qed.

(** X12. Once an admin has set a user's status to ["blocked"], that user's next
    attempt to create a request is refused with 403 and stores nothing. *)
Theorem blocked_user_cannot_create reqA clockA s admin oid d reqU clockU user :
  authenticated P reqA admin ->
  roleOf P admin s = Some (VStr "admin") ->
  ObjectId P (param reqA) = Some oid ->
  body reqA !! "status" = Some (VStr "blocked") ->
  findOne P (byId oid) (users s) = Some d ->
  authenticated P reqU user ->
  findOne P (byEmail (email user)) (users s) = Some d ->
  let s' := snd (dispatch P PatchUserStatus reqA clockA s) in
  handle P PostDonationRequest reqU clockU s' = (sendStatus 403 blockedMessage, s').
Proof.
  intros HauthA Hrole Hoid Hbody Hid HauthU He s'.
  destruct (setUserStatus_seen reqA clockA s admin oid d (email user)
              HauthA Hrole Hoid Hid He) as [_ Hseen].
  fold s' in Hseen. cbn [handle].
  rewrite (verifyToken_authenticated _ _ _ _ _ HauthU).
  unfold createDonationRequest. rewrite Hseen, Hbody, bson_Some.
  unfold isStr. rewrite bool_decide_eq_true_2; [done|].
  apply lookup_union_Some_l. apply lookup_singleton_eq.
Qed.


(** X14. Once an admin has made a user a volunteer or an admin, the staff
    listing answers that user with the stored requests instead of 403. *)
Theorem promoted_user_lists_requests reqA clockA s admin oid d reqU clockU user role :
  authenticated P reqA admin ->
  roleOf P admin s = Some (VStr "admin") ->
  ObjectId P (param reqA) = Some oid ->
  body reqA !! "role" = Some (VStr role) ->
  role = "volunteer" \/ role = "admin" ->
  findOne P (byId oid) (users s) = Some d ->
  authenticated P reqU user ->
  query_status reqU = None ->
  findOne P (byEmail (email user)) (users s) = Some d ->
  let s' := snd (dispatch P PatchUserRole reqA clockA s) in
  handle P GetAllBloodDonationRequests reqU clockU s'
  = (send (PList (requests s)), s').
Proof.
  intros HauthA Hrole Hoid Hbody Hwhich Hid HauthU Hq He s'.
  destruct (setUserRole_seen reqA clockA s admin oid d (email user)
              HauthA Hrole Hoid Hid He) as [Hreqs Hseen].
  fold s' in Hseen, Hreqs. cbn [handle].
  rewrite (verifyToken_authenticated _ _ _ _ _ HauthU).
  unfold allBloodDonationRequests. rewrite Hseen, Hbody, bson_Some.
  rewrite (lookup_union_Some_l _ _ _ _ (lookup_singleton_eq _ _)).
  unfold withStatus. rewrite Hq, Hreqs, find_nil. unfold isStr.
  destruct Hwhich as [-> | ->].
  - rewrite (bool_decide_eq_true_2 (_ = Some (VStr "volunteer"))) by done.
    by rewrite andb_false_r.
  - by rewrite (bool_decide_eq_true_2 (_ = Some (VStr "admin"))) by done.
Qed.

(** *** Listings *)

Lemma matches_withParam k v query d :
  matches P (withParam k v query) d = true -> matches P query d = true.
Proof.
  unfold withParam. destruct v as [[|c x]|]; try done.
  rewrite matches_app. by intros [? _]%andb_true_iff.
Qed.

Lemma matches_withStatus req query d :
  matches P (withStatus req query) d
  = matches P query d
    && match query_status req with
       | None | Some EmptyString => true
       | Some st => matchField P (VStr st) (d !! "status")
       end.
Proof.
  unfold withStatus. destruct (query_status req) as [[|c x]|].
  - by rewrite andb_true_r.
  - by rewrite matches_app, matches_one.
  - by rewrite andb_true_r.
Qed.

(** X15. The own-requests listing answers a caller who asks for their own
    email with stored requests that satisfy [{ requesterEmail: email }]: a
    request whose requester is that string is listed when no status is asked
    for, or when its status is the one asked for, and is not listed when its
    status is another string than a non-empty one asked for. *)
Theorem own_listing req clock s user :
  authenticated P req user ->
  email user = param req ->
  exists l,
    handle P GetDonationRequests req clock s = (send (PList l), s)
    /\ (forall d, d ∈ l ->
          d ∈ requests s
          /\ matchField P (VStr (email user)) (d !! "requesterEmail") = true)
    /\ (forall d, d ∈ requests s ->
          d !! "requesterEmail" = Some (VStr (email user)) ->
          query_status req = None \/ query_status req = Some ""
          \/ (exists st, query_status req = Some st /\ d !! "status" = Some (VStr st)) ->
          d ∈ l)
    /\ (forall d st st',
          query_status req = Some st -> st <> "" ->
          d !! "status" = Some (VStr st') -> st' <> st -> d ∉ l).
Proof.
  intros Hauth Hself. cbn [handle].
  rewrite (verifyToken_authenticated _ _ _ _ _ Hauth).
  unfold getDonationRequests.
  rewrite bool_decide_eq_false_2 by (intros Hne; by apply Hne).
  eexists. split; [reflexivity|]. rewrite <- Hself. split; [|split].
  - intros d Hd. apply find_spec in Hd as [Hin Hm]. split; [done|].
    rewrite matches_withStatus, matches_one in Hm. by apply andb_true_iff in Hm as [? _].
  - intros d Hin Hreq Hq. apply find_spec. split; [done|].
    rewrite matches_withStatus, matches_one, Hreq.
    rewrite (matchField_str _ _ _ eq_refl). cbn [andb].
    destruct Hq as [-> | [-> | (st & -> & Hst)]]; [done..|].
    destruct st; [done|]. by apply matchField_str.
  - intros d st st' Hq Hne Hst Hdiff Hd. apply find_spec in Hd as [_ Hm].
    rewrite matches_withStatus, Hq in Hm. destruct st as [|c x]; [done|].
    rewrite Hst, matchField_str_ne in Hm by done. by rewrite andb_false_r in Hm.
Qed.

(** X16. The donor search needs no token and, whatever the query, answers only
    with stored users that satisfy [{ status: "active" }], whole documents: a
    user whose status is another string, ["blocked"] for one, is never
    listed, and with an empty query every user whose status is ["active"]
    is. *)
Theorem search_lists_active_only q req clock s :
  exists l,
    dispatch P (SearchDonors q) req clock s = (send (PList l), s)
    /\ (forall d, d ∈ l ->
          d ∈ users s /\ matchField P (VStr "active") (d !! "status") = true)
    /\ (forall d st, d !! "status" = Some (VStr st) -> st <> "active" -> d ∉ l)
    /\ (q_bloodGroup q = None -> q_district q = None -> q_upazila q = None ->
        forall d, d ∈ users s -> d !! "status" = Some (VStr "active") -> d ∈ l).
Proof.
  eexists. split; [reflexivity|].
  assert (Hactive : forall d,
    matches P (withParam "upazila" (q_upazila q)
                 (withParam "district" (q_district q)
                    (withParam "bloodGroup" (q_bloodGroup q)
                       [("status", VStr "active")]))) d = true ->
    matchField P (VStr "active") (d !! "status") = true).
  { intros d Hm. do 3 apply matches_withParam in Hm. by rewrite matches_one in Hm. }
  split; [|split].
  - intros d Hd. apply find_spec in Hd as [Hin Hm]. auto.
  - intros d st Hst Hne Hd. apply find_spec in Hd as [_ Hm]. apply Hactive in Hm.
    rewrite Hst, matchField_str_ne in Hm by done. done.
  - intros -> -> -> d Hin Hst. apply find_spec. split; [done|].
    cbn [withParam]. by apply matches_str.
Qed.

(** *** Payments that are not recorded *)

(** X17. Without a configured processor, with a session the processor cannot
    retrieve, or with one it does not report as paid, saving answers 500, 500
    and 400 and records nothing. *)
Theorem unpaid_session_not_recorded req clock s user :
  authenticated P req user ->
  (stripe P = None ->
   handle P PostSaveSession req clock s = (sendStatus 500 (message "Stripe error"), s))
  /\ (forall retrieve,
        stripe P = Some retrieve ->
        retrieve (body req !! "sessionId") = None ->
        handle P PostSaveSession req clock s
        = (sendStatus 500 (message "Error verifying payment"), s))
  /\ (forall retrieve session,
        stripe P = Some retrieve ->
        retrieve (body req !! "sessionId") = Some session ->
        payment_status session <> "paid" ->
        handle P PostSaveSession req clock s
        = (sendStatus 400 (message "Payment not paid"), s)).
Proof.
  intros Hauth. cbn [handle].
  rewrite (verifyToken_authenticated _ _ _ _ _ Hauth). unfold saveSession.
  split; [|split].
  - by intros ->.
  - intros retrieve -> Hret. by rewrite Hret.
  - intros retrieve session -> Hret Hne. rewrite Hret.
    by rewrite (proj2 (String.eqb_neq _ _) Hne).
Qed.

(** *** Blog posts *)



(** X19. Once an admin has set the status of a post, the public listing
    filtered by that status shows the post and the listing filtered by any
    other status does not. *)
Theorem blog_status_drives_listing req clock s user oid d st :
  authenticated P req user ->
  roleOf P user s = Some (VStr "admin") ->
  ObjectId P (param req) = Some oid ->
  body req !! "status" = Some (VStr st) ->
  st <> "" ->
  findOne P (byId oid) (blogs s) = Some d ->
  let s' := snd (dispatch P PatchBlogStatus req clock s) in
  exists d',
    findOne P (byId oid) (blogs s') = Some d'
    /\ d' !! "status" = Some (VStr st)
    /\ (forall k, k <> "status" -> d' !! k = d !! k)
    /\ forall req' clock' st' l,
         query_status req' = Some st' -> st' <> "" ->
         dispatch P GetBlogs req' clock' s' = (send (PList l), s') ->
         (d' ∈ l <-> st' = st).
Proof.
  intros Hauth Hrole Hoid Hbody Hne Hfind s'. subst s'. cbn [dispatch].
  rewrite (admin_route _ _ _ _ Hauth Hrole). unfold setBlogStatus.
  rewrite Hoid, Hbody, bson_Some. cbn [snd blogs setBlogs].
  destruct (updateOne_set P (byId oid) {[ "status" := VStr st ]} _ d Hfind)
    as (pre & post & Hc & Hupd & Hagain).
  { repeat constructor. }
  rewrite Hupd. exists ({[ "status" := VStr st ]} ∪ d).
  assert (Hst : ({[ "status" := VStr st ]} ∪ d) !! "status" = Some (VStr st)).
  { apply lookup_union_Some_l. apply lookup_singleton_eq. }
  split; [done|]. split; [done|]. split.
  - intros k Hk. apply lookup_union_r. by apply lookup_singleton_ne.
  - intros req' clock' st' l Hq Hne' Hl. unfold getBlogs in Hl.
    cbn [blogs setBlogs] in Hl. injection Hl as <-.
    rewrite find_spec, matches_withStatus, Hq. cbn [matches forallb andb].
    destruct st' as [|c x]; [done|]. rewrite Hst. split.
    + intros [_ Hm]. destruct (decide (String c x = st)) as [|Hdiff]; [done|].
      rewrite matchField_str_ne in Hm by done. done.
    + intros ->. split.
      * apply elem_of_app. right. apply list_elem_of_here.
      * by apply matchField_str.
Qed.

(** *** Counts per status *)

(** X20. In the per-status counts of [/admin-stats] every document is counted
    once: the keys are pairwise distinct, the bucket of a status counts the
    documents that carry it, the documents without a status being counted
    under null, and the counts add up to the size of the collection. *)
Theorem status_counts_partition (c : list Document) :
  NoDup (countByStatus c).*1
  /\ (forall k, bucketCount k (countByStatus c)
                = length (filter (fun d => bson (d !! "status") = k) c))
  /\ bucketCount VNull (countByStatus c)
     = length (filter (fun d => d !! "status" = None \/ d !! "status" = Some VNull) c)
  /\ sum_list_with snd (countByStatus c) = length c.
Proof.
  unfold countByStatus.
  destruct (group_spec (fun d : Document => bson (d !! "status")) c)
    as (Hnd & Hcount & Htotal & _).
  split; [done|]. split; [done|]. split; [|done].
  rewrite Hcount. f_equal. apply list_filter_iff. intros d.
  destruct (d !! "status") as [v|]; cbn; [|tauto].
  split; [intros ->; by right | intros [?|[= ->]]; done].
Qed.

(** *** What no call does *)

Lemma verifyToken_keeps (Q : Store -> Prop) req s next :
  Q s -> (forall user, Q (snd (next user))) -> Q (snd (verifyToken P req s next)).
Proof.
  intros Hs Hnext. unfold verifyToken.
  destruct (authorization req ≫= split1) as [[|c r]|]; try done.
  destruct (verifyIdToken P _); [done | apply Hnext].
Qed.

Lemma verifyAdmin_keeps (Q : Store -> Prop) user s next :
  Q s -> Q (snd next) -> Q (snd (verifyAdmin P user s next)).
Proof. intros Hs Hnext. unfold verifyAdmin. by destruct (negb _). Qed.

Lemma updateOne_keeps_field flt (set : Document) k c :
  set !! k = None ->
  (.!! k) <$> fst (updateOne P flt set c) = (.!! k) <$> c.
Proof.
  intros Hk. induction c as [|x c IH]; cbn [updateOne]; [done|].
  destruct (matches P flt x); cbn [fst fmap list_fmap].
  - by rewrite (lookup_union_r _ _ _ Hk).
  - f_equal. apply IH.
Qed.

(** X21. No call removes a user or changes a user's email.  After a call on
    any route the emails of the stored users are the emails before, in the
    same order; the one exception is a sign-up, after which they may be
    followed by one more, the email of the sign-up's body. *)
Theorem users_are_never_removed req clock s :
  (forall ep,
     emails (snd (handle P ep req clock s)) = emails s
     \/ (ep = PostUsers
         /\ emails (snd (handle P ep req clock s))
            = (emails s ++ [body req !! "email"])%list))
  /\ (forall r, emails (snd (dispatch P r req clock s)) = emails s).
Proof.
  split.
  - intros ep. destruct ep; cbn [handle].
    6: { unfold addUser. destruct (findOne _ _ _); [by left|].
         destruct (insertOne _ _ _) as [result|] eqn:Hins; [|by left].
         right. split; [done|]. unfold insertOne in Hins.
         destruct (takes _ _); [|done]. injection Hins as <-.
         unfold emails. cbn [fst snd users setNextId setUsers].
         rewrite fmap_app. cbn [fmap list_fmap]. by rewrite !lookup_insert_ne. }
    all: left; apply (verifyToken_keeps (fun s' => emails s' = emails s));
      [done | intros user].
    + unfold createDonationRequest. destruct (findOne _ _ _); [|done].
      destruct (isStr _ _); [done|]. by destruct (insertOne _ _ _).
    + unfold getDonationRequests. by destruct (bool_decide _).
    + unfold updateDonationRequest. by destruct (ObjectId _ _).
    + unfold donate. by destruct (ObjectId _ _).
    + unfold allBloodDonationRequests. destruct (findOne _ _ _); [|done].
      by destruct (_ && _).
    + unfold getRole. by destruct (bool_decide _).
    + unfold userStats. by destruct (bool_decide _).
    + unfold getUser. by destruct (findOne _ _ _).
    + unfold updateUser, emails. cbn [snd users setUsers].
      by rewrite updateOne_keeps_field.
    + unfold saveSession. destruct (stripe P) as [retrieve|]; [|done].
      destruct (retrieve _) as [session|]; [|done].
      destruct (String.eqb _ _); [|done]. destruct (findOne _ _ _); [done|].
      by destruct (insertOne _ _ _).
  - intros r. destruct r; cbn [dispatch];
      try (apply (verifyToken_keeps (fun s' => emails s' = emails s));
           [done | intros user]);
      try (apply (verifyAdmin_keeps (fun s' => emails s' = emails s));
           [done|]);
      try done.
    + unfold deleteDonationRequest. by destruct (ObjectId _ _).
    + unfold setRequestStatus. by destruct (ObjectId _ _).
    + unfold getDonationRequest. destruct (ObjectId _ _); [|done].
      by destruct (findOne _ _ _).
    + unfold setUserStatus, emails. destruct (ObjectId _ _); [|done].
      cbn [snd users setUsers]. by rewrite updateOne_keeps_field.
    + unfold setUserRole, emails. destruct (ObjectId _ _); [|done].
      cbn [snd users setUsers]. by rewrite updateOne_keeps_field.
    + unfold createBlog. by destruct (insertOne _ _ _).
    + unfold getBlog. destruct (ObjectId _ _); [|done]. by destruct (findOne _ _ _).
    + unfold setBlogStatus. by destruct (ObjectId _ _).
    + unfold deleteBlog. by destruct (ObjectId _ _).
Qed.

(** X22. The ledger only grows, and by one payment at most.  After a call on
    any route the payments stored are the payments before, unchanged and in
    order; the one exception is the saving of a session, after which they may
    be followed by one more, the payment of that session. *)
Theorem ledger_is_append_only req clock s :
  (forall ep,
     payments (snd (handle P ep req clock s)) = payments s
     \/ (ep = PostSaveSession
         /\ exists entry,
              payments (snd (handle P ep req clock s)) = (payments s ++ [entry])%list
              /\ entry !! "transactionId" = Some (bson (body req !! "sessionId"))))
  /\ (forall r, payments (snd (dispatch P r req clock s)) = payments s).
Proof.
  split.
  - intros ep. destruct ep; cbn [handle].
    11: {
      apply (verifyToken_keeps
               (fun s' => payments s' = payments s
                          \/ (PostSaveSession = PostSaveSession
                              /\ exists entry,
                                   payments s' = (payments s ++ [entry])%list
                                   /\ entry !! "transactionId"
                                      = Some (bson (body req !! "sessionId")))));
        [by left | intros user].
      unfold saveSession. destruct (stripe P) as [retrieve|]; [|by left].
      destruct (retrieve _) as [session|]; [|by left].
      destruct (String.eqb _ _); [|by left]. destruct (findOne _ _ _); [by left|].
      destruct (insertOne _ _ _) as [result|] eqn:Hins; [|by left].
      right. split; [done|]. unfold insertOne in Hins.
      destruct (takes _ _); [|done]. injection Hins as <-.
      cbn [fst snd payments setNextId setPayments]. eexists. split; [reflexivity|].
      rewrite !lookup_insert_ne by done. apply lookup_insert_eq. }
    all: left;
      try (apply (verifyToken_keeps (fun s' => payments s' = payments s));
           [done | intros user]).
    + unfold createDonationRequest. destruct (findOne _ _ _); [|done].
      destruct (isStr _ _); [done|]. by destruct (insertOne _ _ _).
    + unfold getDonationRequests. by destruct (bool_decide _).
    + unfold updateDonationRequest. by destruct (ObjectId _ _).
    + unfold donate. by destruct (ObjectId _ _).
    + unfold allBloodDonationRequests. destruct (findOne _ _ _); [|done].
      by destruct (_ && _).
    + unfold addUser. destruct (findOne _ _ _); [done|].
      by destruct (insertOne _ _ _).
    + unfold getRole. by destruct (bool_decide _).
    + unfold userStats. by destruct (bool_decide _).
    + unfold getUser. by destruct (findOne _ _ _).
    + done.
  - intros r. destruct r; cbn [dispatch];
      try (apply (verifyToken_keeps (fun s' => payments s' = payments s));
           [done | intros user]);
      try (apply (verifyAdmin_keeps (fun s' => payments s' = payments s));
           [done|]);
      try done.
    + unfold deleteDonationRequest. by destruct (ObjectId _ _).
    + unfold setRequestStatus. by destruct (ObjectId _ _).
    + unfold getDonationRequest. destruct (ObjectId _ _); [|done].
      by destruct (findOne _ _ _).
    + unfold setUserStatus. by destruct (ObjectId _ _).
    + unfold setUserRole. by destruct (ObjectId _ _).
    + unfold createBlog. by destruct (insertOne _ _ _).
    + unfold getBlog. destruct (ObjectId _ _); [|done]. by destruct (findOne _ _ _).
    + unfold setBlogStatus. by destruct (ObjectId _ _).
    + unfold deleteBlog. by destruct (ObjectId _ _).
Qed.

(** *** The two staff checks *)

(** X23. The staff listing checks the role in line and [verifyVolunteer] checks
    it as a middleware; for a caller who has a stored profile the two agree:
    both refuse with 403, or both let the caller through. *)
Theorem staff_checks_agree req clock s user next :
  authenticated P req user ->
  is_Some (findOne P (byEmail (email user)) (users s)) ->
  (verifyVolunteer P user s next = (sendStatus 403 volunteersOnly, s)
   /\ handle P GetAllBloodDonationRequests req clock s = (sendStatus 403 forbidden, s))
  \/ (verifyVolunteer P user s next = next
      /\ exists l, handle P GetAllBloodDonationRequests req clock s = (send (PList l), s)).
Proof.
  intros Hauth [u Hu]. cbn [handle].
  rewrite (verifyToken_authenticated _ _ _ _ _ Hauth).
  unfold verifyVolunteer, allBloodDonationRequests, roleOf. rewrite Hu.
  cbn [mbind option_bind].
  destruct (isStr "admin" (u !! "role")), (isStr "volunteer" (u !! "role"));
    cbn [negb andb]; eauto.
Qed.

(** *** A new user *)


End MoreFacts.

(** * The rest of the server on the running example *)

Lemma unauthenticated_rejected_witness :
  (forall next : Decoded -> Reply,
     exists p, unauthorized p
               /\ verifyToken testPlatform (anonymous id1 ∅) clinic next
                  = (sendStatus 401 p, clinic))
  /\ (forall ep, ep <> PostUsers ->
        exists p, unauthorized p
                  /\ handle testPlatform ep (anonymous id1 ∅) (at_ 0) clinic
                     = (sendStatus 401 p, clinic))
  /\ (forall r, protected r = true ->
        exists p, unauthorized p
                  /\ dispatch testPlatform r (anonymous id1 ∅) (at_ 0) clinic
                     = (sendStatus 401 p, clinic)).
Proof.
  apply (unauthenticated_rejected testPlatform (anonymous id1 ∅) (at_ 0) clinic).
  intros user (token & Htoken & _). discriminate.
Defined.

Lemma any_scheme_authenticates_witness :
  authenticated testPlatform
    {| authorization := Some ("Basic" ++ " " ++ "erin@example.org"); param := "";
       query_status := None; body := ∅ |}
    asErin.
Proof.
  apply (any_scheme_authenticates testPlatform "Basic" "erin@example.org" asErin).
  - repeat constructor; discriminate.
  - repeat constructor; discriminate.
  - discriminate.
  - reflexivity.
Defined.

Lemma admin_only_forbidden_witness :
  dispatch testPlatform GetAllUsers (bearer "erin@example.org" "" ∅) (at_ 0) clinic
  = (sendStatus 403 adminsOnly, clinic).
Proof.
  apply (admin_only_forbidden testPlatform GetAllUsers _ (at_ 0) clinic asErin).
  - apply list_elem_of_here.
  - authenticate "erin@example.org".
  - vm_compute. discriminate.
Defined.




Lemma delete_removes_request_witness :
  exists pre post,
    requests clinic = (pre ++ request1 :: post)%list
    /\ dispatch testPlatform DeleteDonationRequest
         (bearer "erin@example.org" id1 ∅) (at_ 0) clinic
       = (send (deleteResult 1), setRequests (pre ++ post) clinic)
    /\ request1 !! "requesterEmail" = Some (VStr "alice@example.org").
Proof.
  destruct (delete_removes_request testPlatform
              (bearer "erin@example.org" id1 ∅) (at_ 0) clinic asErin 1%N request1)
    as (pre & post & Hc & Hrun & _).
  - authenticate "erin@example.org".
  - reflexivity.
  - reflexivity.
  - exists pre, post. by repeat split.
Defined.


Lemma malformed_id_throws_witness :
  dispatch testPlatform GetBlog (anonymous "not-an-id" ∅) (at_ 0) clinic
  = (Threw, clinic).
Proof.
  apply (malformed_id_throws testPlatform (anonymous "not-an-id" ∅) (at_ 0) clinic).
  reflexivity.
Defined.


Lemma blocked_user_cannot_create_witness :
  let s' := snd (dispatch testPlatform PatchUserStatus danaBlocksErin (at_ 0) clinic) in
  handle testPlatform PostDonationRequest erinAsks (at_ 1) s'
  = (sendStatus 403 blockedMessage, s').
Proof.
  apply (blocked_user_cannot_create testPlatform danaBlocksErin (at_ 0) clinic asDana
           11%N erin erinAsks (at_ 1) asErin).
  - authenticate "dana@example.org".
  - reflexivity.
  - reflexivity.
  - reflexivity.
  - reflexivity.
  - authenticate "erin@example.org".
  - reflexivity.
Defined.


Lemma promoted_user_lists_requests_witness :
  let s' := snd (dispatch testPlatform PatchUserRole danaPromotesErin (at_ 0) clinic) in
  handle testPlatform GetAllBloodDonationRequests
    (bearer "erin@example.org" "" ∅) (at_ 1) s'
  = (send (PList (requests clinic)), s').
Proof.
  apply (promoted_user_lists_requests testPlatform danaPromotesErin (at_ 0) clinic
           asDana 11%N erin (bearer "erin@example.org" "" ∅) (at_ 1) asErin
           "volunteer").
  - authenticate "dana@example.org".
  - reflexivity.
  - reflexivity.
  - reflexivity.
  - left. reflexivity.
  - reflexivity.
  - authenticate "erin@example.org".
  - reflexivity.
  - reflexivity.
Defined.

Lemma own_listing_witness :
  exists l,
    handle testPlatform GetDonationRequests
      (bearer "erin@example.org" "erin@example.org" ∅) (at_ 0) clinic
    = (send (PList l), clinic)
    /\ request2 ∈ l
    /\ forall d, d ∈ l ->
         matchField testPlatform (VStr "erin@example.org") (d !! "requesterEmail")
         = true.
Proof.
  destruct (own_listing testPlatform
              (bearer "erin@example.org" "erin@example.org" ∅) (at_ 0) clinic asErin)
    as (l & Hrun & Honly & Hall & _).
  - authenticate "erin@example.org".
  - reflexivity.
  - exists l. split; [exact Hrun|]. split.
    + apply Hall.
      * apply list_elem_of_further, list_elem_of_here.
      * reflexivity.
      * left. reflexivity.
    + intros d Hd. apply (Honly d Hd).
Defined.

Lemma unpaid_session_not_recorded_witness :
  handle testPlatform PostSaveSession
    (bearer "erin@example.org" "" {[ "sessionId" := VStr "cs_open" ]}) (at_ 0) clinic
  = (sendStatus 500 (message "Error verifying payment"), clinic).
Proof.
  destruct (unpaid_session_not_recorded testPlatform
              (bearer "erin@example.org" "" {[ "sessionId" := VStr "cs_open" ]})
              (at_ 0) clinic asErin) as (_ & Hthrows & _).
  - authenticate "erin@example.org".
  - eapply Hthrows; reflexivity.
Defined.


Lemma blog_status_drives_listing_witness :
  let s' := snd (dispatch testPlatform PatchBlogStatus danaPublishes (at_ 0) clinic) in
  exists d',
    findOne testPlatform (byId 20) (blogs s') = Some d'
    /\ d' !! "status" = Some (VStr "published")
    /\ forall l,
         dispatch testPlatform GetBlogs published (at_ 1) s' = (send (PList l), s') ->
         d' ∈ l.
Proof.
  destruct (blog_status_drives_listing testPlatform danaPublishes (at_ 0) clinic asDana
              20%N post1 "published")
    as (d' & Hfind & Hst & _ & Hlist).
  - authenticate "dana@example.org".
  - reflexivity.
  - reflexivity.
  - reflexivity.
  - discriminate.
  - reflexivity.
  - exists d'. split; [exact Hfind|]. split; [exact Hst|].
    intros l Hl.
    apply (Hlist published (at_ 1) "published" l);
      [reflexivity | discriminate | exact Hl | reflexivity].
Defined.

Lemma staff_checks_agree_witness :
  (verifyVolunteer testPlatform asErin clinic (Threw, clinic)
   = (sendStatus 403 volunteersOnly, clinic)
   /\ handle testPlatform GetAllBloodDonationRequests
        (bearer "erin@example.org" "" ∅) (at_ 0) clinic
      = (sendStatus 403 forbidden, clinic))
  \/ (verifyVolunteer testPlatform asErin clinic (Threw, clinic) = (Threw, clinic)
      /\ exists l,
           handle testPlatform GetAllBloodDonationRequests
             (bearer "erin@example.org" "" ∅) (at_ 0) clinic
           = (send (PList l), clinic)).
Proof.
  apply (staff_checks_agree testPlatform (bearer "erin@example.org" "" ∅) (at_ 0)
           clinic asErin (Threw, clinic)).
  - authenticate "erin@example.org".
  - exists erin. reflexivity.
Defined.

